(** * OpenData: tender risk engine and pollutant classifier

    A shallow embedding of [backend/services/tenderService.js]
    ([analyzeTenderRisks], [generateSummary], [formatAmount], [formatMonth],
    [aiAnalyzeTender]) and of [getPollutantStatus] from
    [frontend/js/main.js], with the properties the specification states
    about them. *)

From Stdlib Require Import ZArith QArith Qround Qpower Qreduction Lqa Lia.
From Stdlib Require Import Bool List String Ascii DecimalString Floats.
From Stdlib Require Import Sorted.
Import ListNotations.

Local Open Scope string_scope.
Local Open Scope Z_scope.
Local Open Scope list_scope.

(** ** JavaScript numbers

    A finite JavaScript number is an IEEE 754 binary64 value, hence a
    rational.  An arithmetic operation is the exact operation followed by
    rounding to the nearest binary64 value, ties to even ([rnd]).  The model
    covers the normal range only: no subnormals, no overflow to [Infinity], no
    [NaN]; none of them arises from integer amounts and valid dates. *)
Module Number.

Definition pow2 (e : Z) : Q := (2 ^ e)%Q.

(** The exponent [e] with [2^e <= q < 2^(e+1)], for [q > 0]. *)
Definition ilog2 (q : Q) : Z :=
  let c := Z.log2 (Qnum q) - Z.log2 (Zpos (Qden q)) in
  if Qle_bool (pow2 c) q then c else c - 1.

(** Nearest integer, ties to the even one. *)
Definition rne (m : Q) : Z :=
  let f := Qfloor m in
  match Qcompare (m - inject_Z f) (1 # 2) with
  | Lt => f
  | Gt => f + 1
  | Eq => if Z.even f then f else f + 1
  end.

(** Rounding of a positive rational to 53 significant bits. *)
Definition rnd_pos (q : Q) : Q :=
  let e := ilog2 q in
  (inject_Z (rne (q * pow2 (52 - e))) * pow2 (e - 52))%Q.

(** Rounding to binary64; the result is a reduced fraction. *)
Definition rnd (q : Q) : Q :=
  match Qnum q with
  | 0 => 0%Q
  | Zpos _ => Qred (rnd_pos q)
  | Zneg _ => Qred (- rnd_pos (- q))
  end.

(** A decimal literal of the source, and an integer read as a number. *)
Definition lit (q : Q) : Q := rnd q.
Definition ofZ (z : Z) : Q := rnd (inject_Z z).

Definition add (a b : Q) : Q := rnd (a + b).
Definition sub (a b : Q) : Q := rnd (a - b).
Definition mul (a b : Q) : Q := rnd (a * b).
Definition div (a b : Q) : Q := rnd (a / b).

(** [a >= b] and [a < b]. *)
Definition geb (a b : Q) : bool := Qle_bool b a.
Definition ltb (a b : Q) : bool := negb (Qle_bool b a).

(** [Math.ceil] and [Math.round] (ties toward +Infinity). *)
Definition ceil (x : Q) : Z := Qceiling x.
Definition round (x : Q) : Z := Qfloor (x + (1 # 2)).

(** The rational value of one of the kernel's binary64 floats, to check
    [rnd] against them. *)
Definition ofFloat (f : float) : option Q :=
  match Prim2SF f with
  | S754_zero _ => Some 0%Q
  | S754_finite s m e =>
      let v := (inject_Z (Zpos m) * pow2 e)%Q in
      Some (Qred (if s then - v else v))
  | S754_infinity _ | S754_nan => None
  end.

(** [String(n)] for an integer-valued number below 1e21. *)
Definition toString (n : Z) : string := NilZero.string_of_int (Z.to_int n).

End Number.

(** ** Dates

    A [Date] is its time value, the milliseconds since 1970-01-01T00:00Z.
    [getMonth] reads the month of the local time; the civil date of a day
    number follows the proleptic Gregorian calendar. *)
Module Date.

Definition msPerDay : Z := 86400000.

Definition Day (t : Z) : Z := t / msPerDay.

(** Year, month (1..12) and day of the month of a day number. *)
Definition civil (day : Z) : Z * Z * Z :=
  let z := day + 719468 in
  let era := z / 146097 in
  let doe := z - era * 146097 in
  let yoe := (doe - doe / 1460 + doe / 36524 - doe / 146096) / 365 in
  let doy := doe - (365 * yoe + yoe / 4 - yoe / 100) in
  let mp := (5 * doy + 2) / 153 in
  let d := doy - (153 * mp + 2) / 5 + 1 in
  let m := if mp <? 10 then mp + 3 else mp - 9 in
  let y := yoe + era * 400 in
  (if m <=? 2 then y + 1 else y, m, d).

Definition YearFromTime (t : Z) : Z := fst (fst (civil (Day t))).
Definition MonthFromTime (t : Z) : Z := snd (fst (civil (Day t))) - 1.
Definition DateFromTime (t : Z) : Z := snd (civil (Day t)).

(** [Date.UTC(y, m, d)] with [m] in 0..11: midnight UTC of a civil date. *)
Definition UTC (y m d : Z) : Z :=
  let m := m + 1 in
  let y := if m <=? 2 then y - 1 else y in
  let era := y / 400 in
  let yoe := y - era * 400 in
  let doy := (153 * (if 2 <? m then m - 3 else m + 9) + 2) / 5 + d - 1 in
  let doe := yoe * 365 + yoe / 4 - yoe / 100 + doy in
  (era * 146097 + doe - 719468) * msPerDay.

End Date.

(** ** The host: what the code reads from its surroundings

    [now] is the value of [new Date()], [LocalTZA] the offset of the local
    time zone at a given time value (used by [getMonth]), and
    [OPENROUTER_API_KEY] the entry of [process.env]. *)
Module Host.

Record t := mk {
  now : Z;
  LocalTZA : Z -> Z;
  OPENROUTER_API_KEY : option string
}.

End Host.

Definition getMonth (h : Host.t) (t : Z) : Z :=
  Date.MonthFromTime (t + Host.LocalTZA h t).

Definition getDate (h : Host.t) (t : Z) : Z :=
  Date.DateFromTime (t + Host.LocalTZA h t).

(** ** Text

    Strings are UTF-8 byte strings.  A description is a template literal of
    the source, kept as the sequence of its parts: the literal chunks and the
    interpolated values.  [Number.prototype.toFixed] and
    [Number.prototype.toLocaleString] are functions of the runtime; a call to
    either stays a part of its own, with the number and the argument it is
    applied to. *)
Inductive Piece :=
| Lit (s : string)
| ToFixed (x : Q) (digits : Z)
| ToLocaleString (x : Q) (locale : string).

Definition Text := list Piece.

Definition nl : string := String (ascii_of_nat 10) EmptyString.
Definition dquote : string := String (ascii_of_nat 34) EmptyString.

(** ** Data model of the engine *)

Module FindingType.
Inductive t := seasonal | financial | deadline | timeline | combined | category.
End FindingType.

Module Severity.
Inductive t := medium | high | critical.
End Severity.

Module RecommendationType.
Inductive t := timing | control | guarantee | currency | support.
End RecommendationType.

Module RiskLevel.
Inductive t := low | medium | high.
End RiskLevel.

(** An entry of [risks] or of [warnings]. *)
Module Finding.
Record t := mk {
  type : FindingType.t;
  severity : Severity.t;
  title : string;
  description : Text
}.
End Finding.

Module Recommendation.
Record t := mk {
  type : RecommendationType.t;
  title : string;
  description : string
}.
End Recommendation.

(** The fields of a tender that the engine reads.  [amount] is an integer
    number of currency units; the three dates are the time values that
    [new Date(...)] gives for the tender's date strings. *)
Module Tender.
Record t := mk {
  title : string;
  category : string;
  amount : Z;
  deadline : Z;
  executionStart : Z;
  executionEnd : Z
}.
End Tender.

(** The object [analyzeTenderRisks] returns. *)
Module Assessment.
Record t := mk {
  riskScore : Z;
  riskLevel : RiskLevel.t;
  risks : list Finding.t;
  warnings : list Finding.t;
  recommendations : list Recommendation.t;
  summary : string
}.
End Assessment.

(** The four locals [risks], [warnings], [recommendations] and [riskScore]
    that the rules of [analyzeTenderRisks] update in turn. *)
Module State.
Record t := mk {
  risks : list Finding.t;
  warnings : list Finding.t;
  recommendations : list Recommendation.t;
  riskScore : Z
}.

Definition init : t := mk [] [] [] 0.

Definition addScore (n : Z) (s : t) : t :=
  mk (risks s) (warnings s) (recommendations s) (riskScore s + n).

Definition pushRisk (f : Finding.t) (s : t) : t :=
  mk (risks s ++ [f]) (warnings s) (recommendations s) (riskScore s).

Definition pushWarning (f : Finding.t) (s : t) : t :=
  mk (risks s) (warnings s ++ [f]) (recommendations s) (riskScore s).

Definition pushRecommendation (r : Recommendation.t) (s : t) : t :=
  mk (risks s) (warnings s) (recommendations s ++ [r]) (riskScore s).
End State.

(** ** [formatAmount] and [formatMonth] *)

Definition formatAmount (amount : Q) : Text :=
  if Number.geb amount 1000000000 then
    [ToFixed (Number.div amount 1000000000) 1; Lit " млрд ₸"]
  else if Number.geb amount 1000000 then
    [ToFixed (Number.div amount 1000000) 0; Lit " млн ₸"]
  else
    [ToLocaleString amount "ru-RU"; Lit " ₸"].

Definition months : list string :=
  ["январь"; "февраль"; "март"; "апрель"; "май"; "июнь";
   "июль"; "август"; "сентябрь"; "октябрь"; "ноябрь"; "декабрь"].

(** [months[monthIndex]]; an index outside the array reads [undefined]. *)
Definition formatMonth (monthIndex : Z) : string :=
  if monthIndex <? 0 then "undefined"
  else nth (Z.to_nat monthIndex) months "undefined".

(** ** [analyzeTenderRisks] *)

Definition winterMonths : list Z := [10; 11; 0; 1; 2].
Definition winterRiskCategories : list string := ["construction"].

Definition includesZ (l : list Z) (x : Z) : bool := existsb (Z.eqb x) l.
Definition includes (l : list string) (x : string) : bool := existsb (String.eqb x) l.

Definition startMonth (h : Host.t) (tender : Tender.t) : Z :=
  getMonth h (Tender.executionStart tender).

Definition endMonth (h : Host.t) (tender : Tender.t) : Z :=
  getMonth h (Tender.executionEnd tender).

Definition isWinterExecution (h : Host.t) (tender : Tender.t) : bool :=
  includesZ winterMonths (startMonth h tender) || includesZ winterMonths (endMonth h tender).

Definition amountInBillions (tender : Tender.t) : Q :=
  Number.div (Number.ofZ (Tender.amount tender)) 1000000000.

(** [1000 * 60 * 60 * 24] *)
Definition dayLength : Q :=
  Number.mul (Number.mul (Number.mul 1000 60) 60) 24.

Definition daysToDeadline (h : Host.t) (tender : Tender.t) : Z :=
  Number.ceil
    (Number.div
       (Number.sub (inject_Z (Tender.deadline tender)) (inject_Z (Host.now h)))
       dayLength).

Definition executionDays (tender : Tender.t) : Z :=
  Number.ceil
    (Number.div
       (Number.sub (inject_Z (Tender.executionEnd tender))
                   (inject_Z (Tender.executionStart tender)))
       dayLength).

Definition monthsForExecution (tender : Tender.t) : Q :=
  Number.div (inject_Z (executionDays tender)) 30.

Definition expectedMonths (tender : Tender.t) : Q :=
  Number.mul (amountInBillions tender) 3.

Local Notation "s |> f" := (f s) (at level 50, left associativity, only parsing).

(** *** Seasonal risk *)

Definition seasonalFinding (h : Host.t) (tender : Tender.t) : Finding.t :=
  {| Finding.type := FindingType.seasonal;
     Finding.severity := Severity.high;
     Finding.title := "Сезонный риск";
     Finding.description :=
       [Lit "Выполнение строительных работ запланировано на зимний период (";
        Lit (formatMonth (startMonth h tender));
        Lit " - ";
        Lit (formatMonth (endMonth h tender));
        Lit "). Низкие температуры могут привести к срыву сроков и снижению качества работ."] |}.

Definition timingRecommendation : Recommendation.t :=
  {| Recommendation.type := RecommendationType.timing;
     Recommendation.title := "Перенос сроков";
     Recommendation.description :=
       "Рекомендуется перенести начало работ на весенний период (апрель-май) для снижения рисков." |}.

Definition seasonalRule (h : Host.t) (tender : Tender.t) (s : State.t) : State.t :=
  if isWinterExecution h tender && includes winterRiskCategories (Tender.category tender) then
    s |> State.addScore 35
      |> State.pushRisk (seasonalFinding h tender)
      |> State.pushRecommendation timingRecommendation
  else s.

(** *** Financial risk: the two branches of one [if ... else if] *)

Definition financialFinding (tender : Tender.t) : Finding.t :=
  {| Finding.type := FindingType.financial;
     Finding.severity := Severity.high;
     Finding.title := "Высокая стоимость контракта";
     Finding.description :=
       [Lit "Сумма контракта "]
       ++ formatAmount (Number.ofZ (Tender.amount tender))
       ++ [Lit " превышает 2 млрд тенге. Контракты такого масштаба требуют усиленного контроля и поэтапной приемки работ."] |}.

Definition controlRecommendation : Recommendation.t :=
  {| Recommendation.type := RecommendationType.control;
     Recommendation.title := "Поэтапный контроль";
     Recommendation.description :=
       "Рекомендуется разбить контракт на этапы с промежуточной приемкой и оплатой по факту выполнения." |}.

Definition financialWarning (tender : Tender.t) : Finding.t :=
  {| Finding.type := FindingType.financial;
     Finding.severity := Severity.medium;
     Finding.title := "Значительная сумма контракта";
     Finding.description :=
       [Lit "Сумма контракта "]
       ++ formatAmount (Number.ofZ (Tender.amount tender))
       ++ [Lit " требует тщательной проверки поставщика."] |}.

Definition financialRule (tender : Tender.t) (s : State.t) : State.t :=
  if Number.geb (amountInBillions tender) 2 then
    s |> State.addScore 25
      |> State.pushRisk (financialFinding tender)
      |> State.pushRecommendation controlRecommendation
  else if Number.geb (amountInBillions tender) 1 then
    s |> State.addScore 15
      |> State.pushWarning (financialWarning tender)
  else s.

(** *** Deadline pressure *)

Definition deadlineWarning (h : Host.t) (tender : Tender.t) : Finding.t :=
  {| Finding.type := FindingType.deadline;
     Finding.severity := Severity.medium;
     Finding.title := "Сжатые сроки подачи заявок";
     Finding.description :=
       [Lit "До окончания приема заявок осталось ";
        Lit (Number.toString (daysToDeadline h tender));
        Lit " дней. Короткие сроки могут ограничить конкуренцию."] |}.

Definition deadlineRule (h : Host.t) (tender : Tender.t) (s : State.t) : State.t :=
  if (daysToDeadline h tender <? 10) && (daysToDeadline h tender >? 0) then
    s |> State.addScore 15
      |> State.pushWarning (deadlineWarning h tender)
  else s.

(** *** Realism of the execution period, for construction *)

Definition timelineFinding (tender : Tender.t) : Finding.t :=
  {| Finding.type := FindingType.timeline;
     Finding.severity := Severity.high;
     Finding.title := "Нереалистичные сроки выполнения";
     Finding.description :=
       [Lit "Срок выполнения (";
        Lit (Number.toString (Number.round (monthsForExecution tender)));
        Lit " мес.) может быть недостаточным для контракта на "]
       ++ formatAmount (Number.ofZ (Tender.amount tender))
       ++ [Lit ". Есть риск срыва сроков или снижения качества."] |}.

Definition timelineRule (tender : Tender.t) (s : State.t) : State.t :=
  if (Tender.category tender =? "construction")%string
     && Number.geb (amountInBillions tender) (Number.lit 0.5) then
    if Number.ltb (monthsForExecution tender)
                  (Number.mul (expectedMonths tender) (Number.lit 0.7)) then
      s |> State.addScore 20
        |> State.pushRisk (timelineFinding tender)
    else s
  else s.

(** *** Combined seasonal and scale risk *)

Definition combinedFinding (tender : Tender.t) : Finding.t :=
  {| Finding.type := FindingType.combined;
     Finding.severity := Severity.critical;
     Finding.title := "Комбинированный риск";
     Finding.description :=
       [Lit "Крупный строительный контракт ("]
       ++ formatAmount (Number.ofZ (Tender.amount tender))
       ++ [Lit ") с выполнением в зимний период. Сочетание факторов значительно повышает вероятность проблем с исполнением."] |}.

Definition guaranteeRecommendation : Recommendation.t :=
  {| Recommendation.type := RecommendationType.guarantee;
     Recommendation.title := "Усиление гарантий";
     Recommendation.description :=
       "Рекомендуется увеличить размер обеспечения контракта и включить штрафные санкции за срыв сроков." |}.

Definition combinedRule (h : Host.t) (tender : Tender.t) (s : State.t) : State.t :=
  if isWinterExecution h tender
     && includes winterRiskCategories (Tender.category tender)
     && Number.geb (amountInBillions tender) 1 then
    s |> State.addScore 20
      |> State.pushRisk (combinedFinding tender)
      |> State.pushRecommendation guaranteeRecommendation
  else s.

(** *** Category advisories: medical, then it *)

Definition categoryWarning : Finding.t :=
  {| Finding.type := FindingType.category;
     Finding.severity := Severity.medium;
     Finding.title := "Импортное оборудование";
     Finding.description :=
       [Lit "Медицинское оборудование часто импортируется. Учитывайте риски колебания курса валют и логистические задержки."] |}.

Definition currencyRecommendation : Recommendation.t :=
  {| Recommendation.type := RecommendationType.currency;
     Recommendation.title := "Валютные риски";
     Recommendation.description :=
       "Рекомендуется фиксировать цену в тенге или предусмотреть механизм корректировки при изменении курса более 10%." |}.

Definition medicalRule (tender : Tender.t) (s : State.t) : State.t :=
  if (Tender.category tender =? "medical")%string
     && Number.geb (amountInBillions tender) (Number.lit 0.5) then
    s |> State.pushWarning categoryWarning
      |> State.pushRecommendation currencyRecommendation
  else s.

Definition supportRecommendation : Recommendation.t :=
  {| Recommendation.type := RecommendationType.support;
     Recommendation.title := "Техническая поддержка";
     Recommendation.description :=
       "Убедитесь, что контракт включает гарантийное обслуживание и техническую поддержку минимум на 2 года." |}.

Definition itRule (tender : Tender.t) (s : State.t) : State.t :=
  if (Tender.category tender =? "it")%string then
    s |> State.pushRecommendation supportRecommendation
  else s.

(** The locals after the last rule, before the score is capped. *)
Definition runRules (h : Host.t) (tender : Tender.t) : State.t :=
  State.init
    |> seasonalRule h tender
    |> financialRule tender
    |> deadlineRule h tender
    |> timelineRule tender
    |> combinedRule h tender
    |> medicalRule tender
    |> itRule tender.

Definition levelText (riskLevel : RiskLevel.t) : string :=
  match riskLevel with
  | RiskLevel.low => "низкий"
  | RiskLevel.medium => "средний"
  | RiskLevel.high => "высокий"
  end.

Definition lengthOf {A : Type} (l : list A) : Z := Z.of_nat (List.length l).

Definition bulletList (findings : list Finding.t) (summary : string) : string :=
  fold_left (fun acc f => String.concat "" [acc; "- "; Finding.title f; nl]) findings summary.

Definition generateSummary (tender : Tender.t) (riskScore : Z) (riskLevel : RiskLevel.t)
    (risks warnings : list Finding.t) : string :=
  let summary :=
    String.concat ""
      ["**Общая оценка риска: "; Number.toString riskScore; "% ("; levelText riskLevel; ")**"; nl; nl] in
  if (lengthOf risks =? 0) && (lengthOf warnings =? 0) then
    String.concat ""
      [summary; "Тендер "; dquote; Tender.title tender; dquote;
       " не имеет существенных рисков. Рекомендуется стандартная процедура проверки поставщика."]
  else
    let summary :=
      String.concat "" [summary; "Тендер "; dquote; Tender.title tender; dquote; " требует внимания."; nl; nl] in
    let summary :=
      if lengthOf risks >? 0 then
        let summary :=
          String.concat ""
            [summary; "**Выявлено критических рисков: "; Number.toString (lengthOf risks); "**"; nl] in
        String.concat "" [bulletList risks summary; nl]
      else summary in
    if lengthOf warnings >? 0 then
      let summary :=
        String.concat ""
          [summary; "**Предупреждений: "; Number.toString (lengthOf warnings); "**"; nl] in
      bulletList warnings summary
    else summary.

Definition riskLevelOf (riskScore : Z) : RiskLevel.t :=
  if riskScore >=? 60 then RiskLevel.high
  else if riskScore >=? 30 then RiskLevel.medium
  else RiskLevel.low.

Definition analyzeTenderRisks (h : Host.t) (tender : Tender.t) : Assessment.t :=
  let s := runRules h tender in
  let riskScore := Z.min (State.riskScore s) 100 in
  let riskLevel := riskLevelOf riskScore in
  {| Assessment.riskScore := riskScore;
     Assessment.riskLevel := riskLevel;
     Assessment.risks := State.risks s;
     Assessment.warnings := State.warnings s;
     Assessment.recommendations := State.recommendations s;
     Assessment.summary :=
       generateSummary tender riskScore riskLevel (State.risks s) (State.warnings s) |}.

(** The conditions of the rules, named for the statements about them. *)
Definition seasonalCond (h : Host.t) (t : Tender.t) : bool :=
  isWinterExecution h t && includes winterRiskCategories (Tender.category t).

Definition deadlineCond (h : Host.t) (t : Tender.t) : bool :=
  (daysToDeadline h t <? 10) && (daysToDeadline h t >? 0).

Definition timelineCond (t : Tender.t) : bool :=
  (Tender.category t =? "construction")%string
  && Number.geb (amountInBillions t) (Number.lit 0.5)
  && Number.ltb (monthsForExecution t)
                (Number.mul (expectedMonths t) (Number.lit 0.7)).

Definition combinedCond (h : Host.t) (t : Tender.t) : bool :=
  isWinterExecution h t && includes winterRiskCategories (Tender.category t)
  && Number.geb (amountInBillions t) 1.

Definition medicalCond (t : Tender.t) : bool :=
  (Tender.category t =? "medical")%string
  && Number.geb (amountInBillions t) (Number.lit 0.5).

(** ** [aiAnalyzeTender]

    The request sent to the provider and the line written by
    [console.error] are not modelled; what [fetch] and [response.json()] do
    is an input, [Fetch.t].  A parsed body is a JavaScript value as
    [JSON.parse] builds it.

    [aiAnalyzeTender] below is the function for a tender whose amount is a
    number: the two prompts, built before [try], cannot fail then and are
    left out.  [Raw.aiAnalyzeTender] further down is the function with the
    prompts, for a tender whose amount may be missing. *)
#[local] Set Warnings "-register-all".
Inductive Value :=
| Undefined
| Null
| Boolean (b : bool)
| Num (x : Q)
| Infinite (negative : bool)
| Str (s : string)
| Arr (items : list Value)
| Obj (props : list (string * Value)).

(** A property key: an identifier after a dot, or an index in brackets. *)
Inductive Key :=
| Name (s : string)
| Index (i : nat).

Fixpoint lookupOwn (props : list (string * Value)) (k : string) : Value :=
  match props with
  | [] => Undefined
  | (k', v) :: rest => if (k =? k')%string then v else lookupOwn rest k
  end.

(** Reading a property of a value that is neither [undefined] nor [null].
    Only own properties are looked up: the names the source reads
    ([choices], [message], [content]) are on no built-in prototype.  The
    first character of a string stands for its first code unit. *)
Definition member (v : Value) (k : Key) : Value :=
  match v, k with
  | Obj props, Name s => lookupOwn props s
  | Obj props, Index i => lookupOwn props (Number.toString (Z.of_nat i))
  | Arr items, Index i => nth i items Undefined
  | Str s, Index i =>
      match String.get i s with
      | Some c => Str (String c EmptyString)
      | None => Undefined
      end
  | _, _ => Undefined
  end.

Definition nullish (v : Value) : bool :=
  match v with
  | Undefined | Null => true
  | _ => false
  end.

Definition truthy (v : Value) : bool :=
  match v with
  | Undefined | Null => false
  | Boolean b => b
  | Num x => negb (Qeq_bool x 0)
  | Str s => negb (s =? "")%string
  | Infinite _ | Arr _ | Obj _ => true
  end.

(** What the [try] block can throw, as the [catch] clause receives it. *)
Inductive Thrown :=
| FetchFailed (message : string)
| ApiError (status : Z)
| BodyFailed (message : string)
| TypeError.

(** [v.k] and [v[i]]: a [TypeError] when [v] is [undefined] or [null]. *)
Definition read (v : Value) (k : Key) : Thrown + Value :=
  if nullish v then inl TypeError else inr (member v k).

(** [v?.k] *)
Definition readOpt (v : Value) (k : Key) : Value :=
  if nullish v then Undefined else member v k.

Module Fetch.
Inductive body :=
| Unparsed (message : string)
| Parsed (data : Value).

Inductive t :=
| Rejected (message : string)
| Resolved (ok : bool) (status : Z) (json : body).
End Fetch.

Module Source.
Inductive t := ai | local.
End Source.

Module AiResult.
Record t := mk {
  success : bool;
  analysis : Value;
  details : Assessment.t;
  source : Source.t;
  error : option Thrown
}.
End AiResult.

(** [!apiKey]: the variable is unset or empty. *)
Definition noKey (apiKey : option string) : bool :=
  match apiKey with
  | None => true
  | Some k => (k =? "")%string
  end.

(** The [try] block up to [aiResponse]. *)
Definition aiResponse (net : Fetch.t) : Thrown + Value :=
  match net with
  | Fetch.Rejected message => inl (FetchFailed message)
  | Fetch.Resolved ok status json =>
      if negb ok then inl (ApiError status)
      else
        match json with
        | Fetch.Unparsed message => inl (BodyFailed message)
        | Fetch.Parsed data =>
            match read data (Name "choices") with
            | inl e => inl e
            | inr choices =>
                match read choices (Index 0) with
                | inl e => inl e
                | inr first =>
                    let content := readOpt (readOpt first (Name "message")) (Name "content") in
                    inr (if truthy content then content
                         else Str "Не удалось получить анализ")
                end
            end
        end
  end.

Definition aiAnalyzeTender (h : Host.t) (net : Fetch.t) (tender : Tender.t) : AiResult.t :=
  if noKey (Host.OPENROUTER_API_KEY h) then
    let localAnalysis := analyzeTenderRisks h tender in
    {| AiResult.success := true;
       AiResult.analysis := Str (Assessment.summary localAnalysis);
       AiResult.details := localAnalysis;
       AiResult.source := Source.local;
       AiResult.error := None |}
  else
    match aiResponse net with
    | inr response =>
        let localAnalysis := analyzeTenderRisks h tender in
        {| AiResult.success := true;
           AiResult.analysis := response;
           AiResult.details := localAnalysis;
           AiResult.source := Source.ai;
           AiResult.error := None |}
    | inl e =>
        let localAnalysis := analyzeTenderRisks h tender in
        {| AiResult.success := true;
           AiResult.analysis := Str (Assessment.summary localAnalysis);
           AiResult.details := localAnalysis;
           AiResult.source := Source.local;
           AiResult.error := Some e |}
    end.

(** ** [getPollutantStatus]

    [value] is any JavaScript number.  [thresholds[type]] reads an own
    property of the literal or, failing that, a property inherited from
    [Object.prototype]. *)
Module JSNumber.
Inductive t :=
| Finite (q : Q)
| PosInf
| NegInf
| NaN.

(** [a <= b] *)
Definition leb (a b : t) : bool :=
  match a, b with
  | NaN, _ | _, NaN => false
  | NegInf, _ => true
  | _, PosInf => true
  | Finite x, Finite y => Qle_bool x y
  | _, _ => false
  end.
End JSNumber.

Module Status.
Inductive t := good | moderate | poor | unknown.
End Status.

Module Threshold.
Record t := mk { good : Q; moderate : Q }.
End Threshold.

Definition thresholds : list (string * Threshold.t) :=
  [("pm25", Threshold.mk 15 35);
   ("pm10", Threshold.mk 45 75);
   ("no2", Threshold.mk 40 100);
   ("so2", Threshold.mk 20 80);
   ("co", Threshold.mk 4 10)].

(** The property names of [Object.prototype]; each holds a function, or an
    object for [__proto__]. *)
Definition objectPrototype : list string :=
  ["constructor"; "hasOwnProperty"; "isPrototypeOf"; "propertyIsEnumerable";
   "toLocaleString"; "toString"; "valueOf"; "__proto__";
   "__defineGetter__"; "__defineSetter__"; "__lookupGetter__"; "__lookupSetter__"].

(** The value of [thresholds[type]]. *)
Inductive Entry :=
| Own (t : Threshold.t)
| Inherited (name : string)
| Absent.

Fixpoint ownEntry (obj : list (string * Threshold.t)) (key : string) : option Threshold.t :=
  match obj with
  | [] => None
  | (k, v) :: rest => if (key =? k)%string then Some v else ownEntry rest key
  end.

Definition getEntry (obj : list (string * Threshold.t)) (key : string) : Entry :=
  match ownEntry obj key with
  | Some t => Own t
  | None => if includes objectPrototype key then Inherited key else Absent
  end.

(** [t.good] and [t.moderate] as numbers: a built-in of [Object.prototype]
    has neither property, and [undefined] compares as [NaN]. *)
Definition goodOf (t : Entry) : JSNumber.t :=
  match t with
  | Own t => JSNumber.Finite (Threshold.good t)
  | _ => JSNumber.NaN
  end.

Definition moderateOf (t : Entry) : JSNumber.t :=
  match t with
  | Own t => JSNumber.Finite (Threshold.moderate t)
  | _ => JSNumber.NaN
  end.

(** [!t] *)
Definition falsy (t : Entry) : bool :=
  match t with
  | Absent => true
  | _ => false
  end.

Definition getPollutantStatus (type : string) (value : JSNumber.t) : Status.t :=
  let t := getEntry thresholds type in
  if falsy t then Status.unknown
  else if JSNumber.leb value (goodOf t) then Status.good
  else if JSNumber.leb value (moderateOf t) then Status.moderate
  else Status.poor.

(** ** [getTenderById]

    [loadTendersData] reads and parses the data file; its [tenders] array is
    an input here.  [===] compares two values of which the argument comes
    from a caller: an object of the freshly parsed data is identical to no
    other value. *)
Definition strictEq (a b : Value) : bool :=
  match a, b with
  | Undefined, Undefined => true
  | Null, Null => true
  | Boolean x, Boolean y => Bool.eqb x y
  | Num x, Num y => Qeq_bool x y
  | Infinite x, Infinite y => Bool.eqb x y
  | Str x, Str y => (x =? y)%string
  | _, _ => false
  end.

(** [tenders.find(t => t.id === id)] *)
Fixpoint findById (tenders : list Value) (id : Value) : Thrown + Value :=
  match tenders with
  | [] => inr Undefined
  | t :: rest =>
      match read t (Name "id") with
      | inl e => inl e
      | inr v => if strictEq v id then inr t else findById rest id
      end
  end.

Module Lookup.
Inductive t :=
| Found (tender : Value)
| NotFound (error : string).
End Lookup.

Definition getTenderById (tenders : list Value) (id : Value) : Thrown + Lookup.t :=
  match findById tenders id with
  | inl e => inl e
  | inr tender =>
      inr (if negb (truthy tender) then Lookup.NotFound "Тендер не найден"
           else Lookup.Found tender)
  end.

Definition isObject (v : Value) : bool :=
  match v with
  | Obj _ => true
  | _ => false
  end.

(** ** [getAqiColor]

    [aqi] is [None] for [null] and [undefined], otherwise a number. *)
Definition getAqiColor (aqi : option JSNumber.t) : string :=
  match aqi with
  | None => "#9ca3af"
  | Some aqi =>
      if JSNumber.leb aqi (JSNumber.Finite 50) then "#22c55e"
      else if JSNumber.leb aqi (JSNumber.Finite 100) then "#eab308"
      else if JSNumber.leb aqi (JSNumber.Finite 150) then "#f97316"
      else if JSNumber.leb aqi (JSNumber.Finite 200) then "#ef4444"
      else if JSNumber.leb aqi (JSNumber.Finite 300) then "#a855f7"
      else "#7f1d1d"
  end.

(** ** [calculateAverage]

    The stations as the backend sends them: every level of
    [s.details?.pollutants?.[pollutant]?.value] may be missing or [null], and
    a value that is present is a finite number.  The callers pass one of five
    pollutant names. *)
Module Pollutant.
Inductive t := pm25 | pm10 | no2 | so2 | co.

Definition name (p : t) : string :=
  match p with
  | pm25 => "pm25"
  | pm10 => "pm10"
  | no2 => "no2"
  | so2 => "so2"
  | co => "co"
  end.
End Pollutant.

Module Reading.
Record t := mk { value : option Q }.
End Reading.

Module Details.
Record t := mk { pollutants : option (list (string * option Reading.t)) }.
End Details.

Module Station.
Record t := mk { details : option Details.t }.
End Station.

Fixpoint ownReading (obj : list (string * option Reading.t)) (key : string) : option Reading.t :=
  match obj with
  | [] => None
  | (k, v) :: rest => if (key =? k)%string then v else ownReading rest key
  end.

(** [s.details?.pollutants?.[pollutant]?.value] *)
Definition readingOf (pollutant : Pollutant.t) (s : Station.t) : option Q :=
  match Station.details s with
  | None => None
  | Some d =>
      match Details.pollutants d with
      | None => None
      | Some obj =>
          match ownReading obj (Pollutant.name pollutant) with
          | None => None
          | Some r => Reading.value r
          end
      end
  end.

(** [stations.map(...).filter(v => v !== undefined && v !== null)] *)
Fixpoint readings (pollutant : Pollutant.t) (stations : list Station.t) : list Q :=
  match stations with
  | [] => []
  | s :: rest =>
      match readingOf pollutant s with
      | Some v => v :: readings pollutant rest
      | None => readings pollutant rest
      end
  end.

Module Average.
Record t := mk {
  value : option Q;
  unit : string;
  status : Status.t
}.
End Average.

Definition calculateAverage (stations : list Station.t) (pollutant : Pollutant.t) : Average.t :=
  let values := readings pollutant stations in
  if lengthOf values =? 0 then
    {| Average.value := None; Average.unit := ""; Average.status := Status.unknown |}
  else
    let avg := Number.div (fold_left Number.add values 0%Q) (inject_Z (lengthOf values)) in
    let unit := if (Pollutant.name pollutant =? "co")%string then "mg/m³" else "µg/m³" in
    {| Average.value := Some avg;
       Average.unit := unit;
       Average.status := getPollutantStatus (Pollutant.name pollutant) (JSNumber.Finite avg) |}.

(** ** Notions the statements use *)

(** The place of a rule in the order of evaluation. *)
Definition ruleOrder (ty : FindingType.t) : Z :=
  match ty with
  | FindingType.seasonal => 1
  | FindingType.financial => 2
  | FindingType.deadline => 3
  | FindingType.timeline => 4
  | FindingType.combined => 5
  | FindingType.category => 6
  end.

(** What a finding in [risks] and a finding in [warnings] add to the score. *)
Definition riskWeight (f : Finding.t) : Z :=
  match Finding.type f with
  | FindingType.seasonal => 35
  | FindingType.financial => 25
  | FindingType.timeline => 20
  | FindingType.combined => 20
  | _ => 0
  end.

Definition warningWeight (f : Finding.t) : Z :=
  match Finding.type f with
  | FindingType.financial => 15
  | FindingType.deadline => 15
  | _ => 0
  end.

Definition total (weight : Finding.t -> Z) (l : list Finding.t) : Z :=
  fold_right (fun f acc => weight f + acc) 0 l.

Definition isLocaleString (p : Piece) : bool :=
  match p with
  | ToLocaleString _ _ => true
  | _ => false
  end.

(** The bullet lines of a list of findings, and a section of the summary:
    nothing for no finding, otherwise the heading with the count and the
    bullet lines. *)
Definition bulletLines (findings : list Finding.t) : string :=
  fold_right (fun f rest => ("- " ++ Finding.title f ++ nl ++ rest)%string) "" findings.

Definition summarySection (heading : string) (findings : list Finding.t) : string :=
  match findings with
  | [] => ""
  | _ => (heading ++ Number.toString (lengthOf findings) ++ "**" ++ nl
          ++ bulletLines findings)%string
  end.

(** The month and the day of the month of a day of the 400-year cycle, as
    [Date.civil] computes them. *)
Definition monthDayOfCycle (doe : Z) : Z * Z :=
  let yoe := (doe - doe / 1460 + doe / 36524 - doe / 146096) / 365 in
  let doy := doe - (365 * yoe + yoe / 4 - yoe / 100) in
  let mp := (5 * doy + 2) / 153 in
  let d := doy - (153 * mp + 2) / 5 + 1 in
  let m := if mp <? 10 then mp + 3 else mp - 9 in
  (m, d).

Definition validMonthDay (doe : Z) : bool :=
  let '(m, d) := monthDayOfCycle doe in
  (1 <=? m) && (m <=? 12) && (1 <=? d) && (d <=? 31).

Fixpoint allFrom (n : nat) (f : Z -> bool) (k : Z) : bool :=
  match n with
  | O => true
  | S n' => f k && allFrom n' f (k + 1)
  end.

(** The bands of the two classifiers, in order of severity. *)
Definition statusRank (s : Status.t) : Z :=
  match s with
  | Status.good => 0
  | Status.moderate => 1
  | Status.poor => 2
  | Status.unknown => 3
  end.

Definition aqiColors : list string :=
  ["#22c55e"; "#eab308"; "#f97316"; "#ef4444"; "#a855f7"; "#7f1d1d"].

Fixpoint indexOf (x : string) (l : list string) : Z :=
  match l with
  | [] => 0
  | y :: rest => if (x =? y)%string then 0 else 1 + indexOf x rest
  end.

(** The good and the moderate threshold of a pollutant, from [thresholds]. *)
Definition goodThreshold (p : Pollutant.t) : Z :=
  match p with
  | Pollutant.pm25 => 15
  | Pollutant.pm10 => 45
  | Pollutant.no2 => 40
  | Pollutant.so2 => 20
  | Pollutant.co => 4
  end.

Definition moderateThreshold (p : Pollutant.t) : Z :=
  match p with
  | Pollutant.pm25 => 35
  | Pollutant.pm10 => 75
  | Pollutant.no2 => 100
  | Pollutant.so2 => 80
  | Pollutant.co => 10
  end.

(** A tender with another amount. *)
Definition withAmount (t : Tender.t) (a : Z) : Tender.t :=
  {| Tender.title := Tender.title t;
     Tender.category := Tender.category t;
     Tender.amount := a;
     Tender.deadline := Tender.deadline t;
     Tender.executionStart := Tender.executionStart t;
     Tender.executionEnd := Tender.executionEnd t |}.

(** [sub] occurs in [s]. *)
Definition occursIn (sub s : string) : Prop :=
  exists pre post, s = (pre ++ sub ++ post)%string.

(** ** [formatTenderAmount] and the text of an amount

    [formatTenderAmount] is the page's own copy of [formatAmount].
    [toFixed] follows [Number.prototype.toFixed] for a number below 1e21: the
    integer [n] nearest to [x * 10^digits], the larger one of two, written
    with [digits] decimals.  From 1e21 on the runtime switches to the
    exponent notation, which is left out ([None]), as is [toLocaleString]. *)
Definition formatTenderAmount (amount : Q) : Text :=
  if Number.geb amount 1000000000 then
    [ToFixed (Number.div amount 1000000000) 1; Lit " млрд ₸"]
  else if Number.geb amount 1000000 then
    [ToFixed (Number.div amount 1000000) 0; Lit " млн ₸"]
  else
    [ToLocaleString amount "ru-RU"; Lit " ₸"].

Fixpoint zeros (n : nat) : string :=
  match n with
  | O => ""
  | S n' => String "0" (zeros n')
  end.

Definition toFixed (x : Q) (digits : Z) : option string :=
  let negative := negb (Qle_bool 0 x) in
  let x := if negative then (- x)%Q else x in
  if Qle_bool (inject_Z (10 ^ 21)) x then None
  else
    let n := Qfloor (x * inject_Z (10 ^ digits) + (1 # 2)) in
    let m := Number.toString n in
    let f := Z.to_nat digits in
    let m := (zeros (f + 1 - String.length m) ++ m)%string in
    let k := String.length m in
    let body :=
      if digits =? 0 then m
      else (substring 0 (k - f) m ++ "." ++ substring (k - f) f m)%string in
    Some (if negative then ("-" ++ body)%string else body).

Definition renderPiece (p : Piece) : option string :=
  match p with
  | Lit s => Some s
  | ToFixed x digits => toFixed x digits
  | ToLocaleString _ _ => None
  end.

Fixpoint render (text : Text) : option string :=
  match text with
  | [] => Some ""
  | p :: rest =>
      match renderPiece p, render rest with
      | Some a, Some b => Some (a ++ b)%string
      | _, _ => None
      end
  end.

(** ** Dates that do not parse and amounts that are missing

    The engine above is modelled for a tender whose three date strings parse
    and whose [amount] is a number.  The code itself takes whatever the data
    file holds.  Two such values matter below: a date string that does not
    parse, for which [new Date(...)] is an Invalid Date, and an [amount] that
    is [undefined] (the key is absent) or [null]. *)
Module DateObject.
Inductive t :=
| Valid (time : Z)
| Invalid.
End DateObject.

Module Amount.
Inductive t :=
| number (a : Z)
| undefined
| null.
End Amount.

(** A tender as the data file holds it. *)
Module TenderData.
Record t := mk {
  title : string;
  category : string;
  amount : Amount.t;
  deadline : Z;
  executionStart : Z;
  executionEnd : Z
}.

(** The engine's view of the tender, given a number for its amount. *)
Definition typed (t : t) (a : Z) : Tender.t :=
  {| Tender.title := title t;
     Tender.category := category t;
     Tender.amount := a;
     Tender.deadline := deadline t;
     Tender.executionStart := executionStart t;
     Tender.executionEnd := executionEnd t |}.
End TenderData.

Module Raw.

(** [getMonth()] of a date object: [NaN] for an Invalid Date. *)
Definition getMonth (h : Host.t) (d : DateObject.t) : JSNumber.t :=
  match d with
  | DateObject.Valid time => JSNumber.Finite (inject_Z (getMonth h time))
  | DateObject.Invalid => JSNumber.NaN
  end.

(** [months[monthIndex]] for any number: the element when [monthIndex] is an
    index of the array, and [undefined], here [None], otherwise. *)
Definition formatMonth (monthIndex : JSNumber.t) : option string :=
  match monthIndex with
  | JSNumber.Finite q =>
      if Qeq_bool q (inject_Z (Qfloor q)) && (0 <=? Qfloor q)
      then nth_error months (Z.to_nat (Qfloor q))
      else None
  | _ => None
  end.

(** [formatAmount(amount)].  For [undefined] and for [null] neither [>=]
    holds ([undefined] compares as [NaN], [null] as 0), and
    [amount.toLocaleString] is then a [TypeError]. *)
Definition formatAmount (amount : Amount.t) : Thrown + Text :=
  match amount with
  | Amount.number a => inr (formatAmount (Number.ofZ a))
  | Amount.undefined | Amount.null => inl TypeError
  end.

(** [analyzeTenderRisks(tender)].  With the amount missing,
    [tender.amount / 1000000000] is [NaN] ([undefined]) or 0 ([null]): the
    tests [>= 2], [>= 1] and [>= 0.5] are all false, so the financial,
    timeline, combined and medical rules add nothing and [formatAmount] is
    not reached.  The three rules left read the category and the dates
    only. *)
Definition analyzeTenderRisks (h : Host.t) (t : TenderData.t) : Assessment.t :=
  match TenderData.amount t with
  | Amount.number a => analyzeTenderRisks h (TenderData.typed t a)
  | Amount.undefined | Amount.null =>
      let tender := TenderData.typed t 0 in
      let s :=
        State.init
          |> seasonalRule h tender
          |> deadlineRule h tender
          |> itRule tender in
      let riskScore := Z.min (State.riskScore s) 100 in
      let riskLevel := riskLevelOf riskScore in
      {| Assessment.riskScore := riskScore;
         Assessment.riskLevel := riskLevel;
         Assessment.risks := State.risks s;
         Assessment.warnings := State.warnings s;
         Assessment.recommendations := State.recommendations s;
         Assessment.summary :=
           generateSummary tender riskScore riskLevel (State.risks s) (State.warnings s) |}
  end.

(** [aiAnalyzeTender(tender)], the two prompts included.  They are built
    after the test of the key and before [try]; of their parts only
    [formatAmount(tender.amount)] in the user message can throw, and what it
    throws is not caught: the promise is rejected, here [inl]. *)
Definition aiAnalyzeTender (h : Host.t) (net : Fetch.t) (t : TenderData.t)
  : Thrown + AiResult.t :=
  if noKey (Host.OPENROUTER_API_KEY h) then
    let localAnalysis := analyzeTenderRisks h t in
    inr {| AiResult.success := true;
           AiResult.analysis := Str (Assessment.summary localAnalysis);
           AiResult.details := localAnalysis;
           AiResult.source := Source.local;
           AiResult.error := None |}
  else
    match formatAmount (TenderData.amount t) with
    | inl e => inl e
    | inr _ =>
        match aiResponse net with
        | inr response =>
            let localAnalysis := analyzeTenderRisks h t in
            inr {| AiResult.success := true;
                   AiResult.analysis := response;
                   AiResult.details := localAnalysis;
                   AiResult.source := Source.ai;
                   AiResult.error := None |}
        | inl e =>
            let localAnalysis := analyzeTenderRisks h t in
            inr {| AiResult.success := true;
                   AiResult.analysis := Str (Assessment.summary localAnalysis);
                   AiResult.details := localAnalysis;
                   AiResult.source := Source.local;
                   AiResult.error := Some e |}
        end
    end.

End Raw.

(** ** Sample hosts and tenders *)

(** A host in UTC whose clock reads 2025-01-01T00:00Z, with no API key. *)
Definition utcHost : Host.t :=
  {| Host.now := Date.UTC 2025 0 1;
     Host.LocalTZA := fun _ => 0;
     Host.OPENROUTER_API_KEY := None |}.

(** The same host sixty days earlier. *)
Definition earlierHost : Host.t :=
  {| Host.now := Date.UTC 2025 0 1 - 60 * Date.msPerDay;
     Host.LocalTZA := fun _ => 0;
     Host.OPENROUTER_API_KEY := None |}.

(** The same host with an API key configured. *)
Definition keyedHost : Host.t :=
  {| Host.now := Date.UTC 2025 0 1;
     Host.LocalTZA := fun _ => 0;
     Host.OPENROUTER_API_KEY := Some "sk-or-v1" |}.

(** Construction, 2.5 billion, 15 January to 1 March 2025, deadline in five
    days. *)
Definition bridgeTender : Tender.t :=
  {| Tender.title := "Строительство моста";
     Tender.category := "construction";
     Tender.amount := 2500000000;
     Tender.deadline := Date.UTC 2025 0 6;
     Tender.executionStart := Date.UTC 2025 0 15;
     Tender.executionEnd := Date.UTC 2025 2 1 |}.

(** The same tender with the execution ending on 1 March 2026. *)
Definition longBridgeTender : Tender.t :=
  {| Tender.title := "Строительство моста";
     Tender.category := "construction";
     Tender.amount := 2500000000;
     Tender.deadline := Date.UTC 2025 0 6;
     Tender.executionStart := Date.UTC 2025 0 15;
     Tender.executionEnd := Date.UTC 2026 2 1 |}.

(** Medical equipment for 700 million, deadline on 6 January 2025. *)
Definition clinicTender : Tender.t :=
  {| Tender.title := "Томограф";
     Tender.category := "medical";
     Tender.amount := 700000000;
     Tender.deadline := Date.UTC 2025 0 6;
     Tender.executionStart := Date.UTC 2025 4 1;
     Tender.executionEnd := Date.UTC 2025 8 1 |}.

(** Road repair for 1.5 billion, May and June, deadline in March. *)
Definition roadTender : Tender.t :=
  {| Tender.title := "Ремонт дороги";
     Tender.category := "construction";
     Tender.amount := 1500000000;
     Tender.deadline := Date.UTC 2025 2 2;
     Tender.executionStart := Date.UTC 2025 4 1;
     Tender.executionEnd := Date.UTC 2025 5 30 |}.



(** [clinicTender] as the data file holds it, and the same entry without
    its amount. *)
Definition clinicData : TenderData.t :=
  {| TenderData.title := "Томограф";
     TenderData.category := "medical";
     TenderData.amount := Amount.number 700000000;
     TenderData.deadline := Date.UTC 2025 0 6;
     TenderData.executionStart := Date.UTC 2025 4 1;
     TenderData.executionEnd := Date.UTC 2025 8 1 |}.

Definition clinicDataNoAmount : TenderData.t :=
  {| TenderData.title := "Томограф";
     TenderData.category := "medical";
     TenderData.amount := Amount.undefined;
     TenderData.deadline := Date.UTC 2025 0 6;
     TenderData.executionStart := Date.UTC 2025 4 1;
     TenderData.executionEnd := Date.UTC 2025 8 1 |}.

(** A successful response whose body has no choice in it. *)
Definition emptyChoices : Fetch.t :=
  Fetch.Resolved true 200 (Fetch.Parsed (Obj [("choices", Arr [])])).

(** The ways the external call fails into the [catch] clause: [fetch]
    rejects, the response is not ok, the body does not parse, or the parsed
    body is [null] or has no [choices] to index. *)
Definition externalCallFails (net : Fetch.t) : Prop :=
  match net with
  | Fetch.Rejected _ => True
  | Fetch.Resolved ok _ json =>
      ok = false \/
      match json with
      | Fetch.Unparsed _ => True
      | Fetch.Parsed data =>
          nullish data = true \/ nullish (member data (Name "choices")) = true
      end
  end.

(** The tender of the end-to-end scenario, as the host sees its dates. *)
Definition endToEndScenario (h : Host.t) (t : Tender.t) : Prop :=
  Tender.category t = "construction" /\
  Tender.amount t = 2500000000 /\
  getMonth h (Tender.executionStart t) = 0 /\
  getDate h (Tender.executionStart t) = 15 /\
  getMonth h (Tender.executionEnd t) = 2 /\
  getDate h (Tender.executionEnd t) = 1 /\
  Tender.deadline t = Host.now h + 5 * Date.msPerDay.

(** * Properties

    ** Rounding to binary64 *)
Module NumberFacts.
Import Number.
Local Open Scope Q_scope.

Lemma pow2_pos e : 0 < pow2 e.
Proof. apply Qpower_0_lt. reflexivity. Qed.

Lemma pow2_add a b : pow2 (a + b) == pow2 a * pow2 b.
Proof. apply Qpower_plus. discriminate. Qed.

Lemma pow2_mono a b : (a <= b)%Z -> pow2 a <= pow2 b.
Proof. intros H. apply Qpower_le_compat_l; [exact H | discriminate]. Qed.

Lemma pow2_Z a : (0 <= a)%Z -> pow2 a == inject_Z (2 ^ a).
Proof. intros H. unfold pow2. rewrite Zpower_Qpower by exact H. reflexivity. Qed.

Lemma pow2_cancel a : pow2 a * pow2 (- a) == 1.
Proof. rewrite <- pow2_add. rewrite Z.add_opp_diag_r. reflexivity. Qed.

(** [ilog2] brackets its argument between two consecutive powers of two. *)
Lemma ilog2_spec q : 0 < q -> pow2 (ilog2 q) <= q /\ q < pow2 (ilog2 q + 1).
Proof.
  intros Hq. unfold ilog2.
  destruct q as [n d]. cbn [Qnum Qden].
  assert (Hn : (0 < n)%Z).
  { unfold Qlt in Hq. cbn in Hq. lia. }
  set (a := Z.log2 n). set (b := Z.log2 (Zpos d)).
  destruct (Z.log2_spec n Hn) as [Ha1 Ha2]. fold a in Ha1, Ha2.
  destruct (Z.log2_spec (Zpos d) (Pos2Z.is_pos d)) as [Hb1 Hb2]. fold b in Hb1, Hb2.
  assert (Ha0 : (0 <= a)%Z) by apply Z.log2_nonneg.
  assert (Hb0 : (0 <= b)%Z) by apply Z.log2_nonneg.
  assert (Hd : 0 < inject_Z (Zpos d)) by reflexivity.
  assert (Hnd : n # d == inject_Z n * / inject_Z (Zpos d)) by apply Qmake_Qdiv.
  (* n < 2^(a+1), 2^b <= d, so n/d < 2^(a-b+1) *)
  assert (Hup : n # d < pow2 (a - b + 1)).
  { rewrite Hnd. apply Qlt_shift_div_r; [exact Hd|].
    replace (a - b + 1)%Z with ((a + 1) + (- b))%Z by ring.
    rewrite pow2_add.
    apply Qlt_le_trans with (pow2 (a + 1) * pow2 (- b) * pow2 b).
    - rewrite <- Qmult_assoc. rewrite (Qmult_comm (pow2 (- b))), pow2_cancel, Qmult_1_r.
      rewrite pow2_Z by lia. rewrite <- Zlt_Qlt. replace (a + 1)%Z with (Z.succ a) by lia. exact Ha2.
    - apply Qmult_le_l.
      + apply Qmult_lt_0_compat; apply pow2_pos. 
      + rewrite pow2_Z by lia. rewrite <- Zle_Qle. exact Hb1. }
  (* 2^a <= n, d < 2^(b+1), so 2^(a-b-1) < n/d *)
  assert (Hlo : pow2 (a - b - 1) < n # d).
  { rewrite Hnd. apply Qlt_shift_div_l; [exact Hd|].
    replace (a - b - 1)%Z with (a + (- (b + 1)))%Z by ring.
    rewrite pow2_add.
    apply Qlt_le_trans with (pow2 a * pow2 (- (b + 1)) * pow2 (b + 1)).
    - apply Qmult_lt_l.
      + apply Qmult_lt_0_compat; apply pow2_pos. 
      + rewrite pow2_Z by lia. rewrite <- Zlt_Qlt. replace (b + 1)%Z with (Z.succ b) by lia. exact Hb2.
    - rewrite <- Qmult_assoc. rewrite (Qmult_comm (pow2 (- (b+1)))), pow2_cancel, Qmult_1_r.
      rewrite pow2_Z by lia. rewrite <- Zle_Qle. exact Ha1. }
  destruct (Qle_bool (pow2 (a - b)) (n # d)) eqn:E.
  - apply Qle_bool_iff in E. split; assumption.
  - split.
    + apply Qlt_le_weak. exact Hlo.
    + replace (a - b - 1 + 1)%Z with (a - b)%Z by ring.
      apply Qnot_le_lt. intros H. apply Qle_bool_iff in H. congruence.
Qed.

(** The bracketing exponent is unique, hence monotone and invariant under [==]. *)
Lemma ilog2_unique q e : pow2 e <= q -> q < pow2 (e + 1) -> ilog2 q = e.
Proof.
  intros H1 H2.
  assert (Hq : 0 < q) by (eapply Qlt_le_trans; [apply pow2_pos | exact H1]).
  destruct (ilog2_spec q Hq) as [H3 H4].
  destruct (Z.lt_trichotomy (ilog2 q) e) as [Hlt | [Heq | Hgt]]; [exfalso | exact Heq | exfalso].
  - assert (pow2 (ilog2 q + 1) <= pow2 e) by (apply pow2_mono; lia).
    lra.
  - assert (pow2 (e + 1) <= pow2 (ilog2 q)) by (apply pow2_mono; lia).
    lra.
Qed.

Lemma ilog2_mono p q : 0 < p -> p <= q -> (ilog2 p <= ilog2 q)%Z.
Proof.
  intros Hp Hpq.
  destruct (ilog2_spec p Hp) as [H1 H2].
  destruct (ilog2_spec q) as [H3 H4]; [lra|].
  destruct (Z.le_gt_cases (ilog2 p) (ilog2 q)) as [H | H]; [exact H | exfalso].
  assert (pow2 (ilog2 q + 1) <= pow2 (ilog2 p)) by (apply pow2_mono; lia).
  lra.
Qed.

Lemma ilog2_comp p q : 0 < p -> p == q -> ilog2 p = ilog2 q.
Proof.
  intros Hp Hpq. symmetry.
  destruct (ilog2_spec p Hp) as [H1 H2].
  apply ilog2_unique; lra.
Qed.

(** [rne] stays between the floor and the floor plus one. *)
Lemma rne_floor m : (Qfloor m <= rne m <= Qfloor m + 1)%Z.
Proof.
  unfold rne. destruct (Qcompare _ _); [destruct (Z.even _)| |]; lia.
Qed.

Lemma rne_comp m n : m == n -> rne m = rne n.
Proof.
  intros H. unfold rne.
  assert (Hf : Qfloor m = Qfloor n) by (apply Qfloor_comp; exact H).
  rewrite Hf.
  assert (Hc : (m - inject_Z (Qfloor n) ?= 1 # 2) = (n - inject_Z (Qfloor n) ?= 1 # 2)).
  { rewrite H. reflexivity. }
  rewrite Hc. reflexivity.
Qed.

Lemma rne_ge_Z m k : inject_Z k <= m -> (k <= rne m)%Z.
Proof.
  intros H. pose proof (rne_floor m) as [Hf _].
  apply Qfloor_resp_le in H. rewrite Qfloor_Z in H. lia.
Qed.

Lemma rne_le_Z m k : m <= inject_Z k -> (rne m <= k)%Z.
Proof.
  intros H. pose proof (rne_floor m) as [_ Hf].
  pose proof (Qfloor_resp_le _ _ H) as Hk. rewrite Qfloor_Z in Hk.
  destruct (Z.eq_dec (Qfloor m) k) as [E | E]; [| lia].
  (* the floor is k itself, so m = k and the fraction is 0 *)
  unfold rne. rewrite E.
  pose proof (Qfloor_le m) as Hm. rewrite E in Hm.
  assert (Hz : m - inject_Z k == 0) by lra.
  assert (Hc : (m - inject_Z k ?= 1 # 2) = Lt).
  { rewrite Hz. reflexivity. }
  rewrite Hc. lia.
Qed.

Lemma rne_mono m n : m <= n -> (rne m <= rne n)%Z.
Proof.
  intros H.
  pose proof (Qfloor_resp_le _ _ H) as Hf.
  pose proof (rne_floor m) as [_ Hm]. pose proof (rne_floor n) as [Hn _].
  destruct (Z.eq_dec (Qfloor m) (Qfloor n)) as [E | E]; [| lia].
  unfold rne. rewrite E.
  destruct (Qcompare_spec (m - inject_Z (Qfloor n)) (1 # 2)) as [Hm1|Hm1|Hm1];
    destruct (Qcompare_spec (n - inject_Z (Qfloor n)) (1 # 2)) as [Hn1|Hn1|Hn1];
    try destruct (Z.even (Qfloor n)); try lia; exfalso; lra.
Qed.

(** The scaled significand of a positive number lies in [2^52, 2^53). *)
Lemma significand_range q :
  0 < q -> pow2 52 <= q * pow2 (52 - ilog2 q) /\ q * pow2 (52 - ilog2 q) < pow2 53.
Proof.
  intros Hq. destruct (ilog2_spec q Hq) as [H1 H2].
  pose proof (pow2_pos (52 - ilog2 q)) as Hs.
  assert (E1 : pow2 52 == pow2 (ilog2 q) * pow2 (52 - ilog2 q)).
  { rewrite <- pow2_add. replace (ilog2 q + (52 - ilog2 q))%Z with 52%Z by ring. reflexivity. }
  assert (E2 : pow2 53 == pow2 (ilog2 q + 1) * pow2 (52 - ilog2 q)).
  { rewrite <- pow2_add. replace (ilog2 q + 1 + (52 - ilog2 q))%Z with 53%Z by ring. reflexivity. }
  split.
  - rewrite E1. apply Qmult_le_compat_r; lra.
  - rewrite E2. apply Qmult_lt_compat_r; lra.
Qed.

Lemma rnd_pos_range q :
  0 < q -> pow2 (ilog2 q) <= rnd_pos q /\ rnd_pos q <= pow2 (ilog2 q + 1).
Proof.
  intros Hq. destruct (significand_range q Hq) as [H1 H2].
  unfold rnd_pos. cbv zeta.
  set (M := rne (q * pow2 (52 - ilog2 q))).
  pose proof (pow2_pos (ilog2 q - 52)) as Hs.
  assert (HM1 : inject_Z (2 ^ 52) <= inject_Z M).
  { rewrite <- Zle_Qle. apply rne_ge_Z. rewrite <- pow2_Z by lia. exact H1. }
  assert (HM2 : inject_Z M <= inject_Z (2 ^ 53)).
  { rewrite <- Zle_Qle. apply rne_le_Z. rewrite <- pow2_Z by lia. lra. }
  rewrite <- !pow2_Z in HM1, HM2 by lia.
  assert (E1 : pow2 (ilog2 q) == pow2 52 * pow2 (ilog2 q - 52)).
  { rewrite <- pow2_add. replace (52 + (ilog2 q - 52))%Z with (ilog2 q) by ring. reflexivity. }
  assert (E2 : pow2 (ilog2 q + 1) == pow2 53 * pow2 (ilog2 q - 52)).
  { rewrite <- pow2_add. replace (53 + (ilog2 q - 52))%Z with (ilog2 q + 1)%Z by ring. reflexivity. }
  split.
  - rewrite E1. apply Qmult_le_compat_r; lra.
  - rewrite E2. apply Qmult_le_compat_r; lra.
Qed.

Lemma rnd_pos_mono p q : 0 < p -> p <= q -> rnd_pos p <= rnd_pos q.
Proof.
  intros Hp Hpq.
  assert (Hq : 0 < q) by lra.
  pose proof (ilog2_mono p q Hp Hpq) as He.
  destruct (Z.eq_dec (ilog2 p) (ilog2 q)) as [E | E].
  - unfold rnd_pos. cbv zeta. rewrite E.
    pose proof (pow2_pos (ilog2 q - 52)) as Hs.
    pose proof (pow2_pos (52 - ilog2 q)) as Hs'.
    apply Qmult_le_compat_r; [| lra].
    rewrite <- Zle_Qle. apply rne_mono.
    apply Qmult_le_compat_r; lra.
  - destruct (rnd_pos_range p Hp) as [_ H1].
    destruct (rnd_pos_range q Hq) as [H2 _].
    assert (pow2 (ilog2 p + 1) <= pow2 (ilog2 q)) by (apply pow2_mono; lia).
    lra.
Qed.

Lemma rnd_pos_comp p q : 0 < p -> p == q -> rnd_pos p == rnd_pos q.
Proof.
  intros Hp Hpq. unfold rnd_pos. cbv zeta.
  rewrite (ilog2_comp p q Hp Hpq).
  rewrite (rne_comp (p * pow2 (52 - ilog2 q)) (q * pow2 (52 - ilog2 q))).
  - reflexivity.
  - rewrite Hpq. reflexivity.
Qed.

Lemma rnd_pos_pos q : 0 < q -> 0 < rnd_pos q.
Proof.
  intros Hq. destruct (rnd_pos_range q Hq) as [H _].
  pose proof (pow2_pos (ilog2 q)). lra.
Qed.

Lemma Qnum_sign q :
  match Qnum q with
  | 0%Z => q == 0
  | Zpos _ => 0 < q
  | Zneg _ => 0 < - q
  end.
Proof.
  destruct q as [[|n|n] d]; cbn [Qnum]; unfold Qeq, Qlt; cbn; lia.
Qed.

(** Rounding sends equal rationals to the same reduced fraction. *)
Lemma rnd_comp p q : p == q -> rnd p = rnd q.
Proof.
  intros H. unfold rnd.
  pose proof (Qnum_sign p) as Sp. pose proof (Qnum_sign q) as Sq.
  destruct (Qnum p), (Qnum q); try reflexivity; try (exfalso; lra).
  - apply Qred_complete. apply rnd_pos_comp; assumption.
  - apply Qred_complete. apply Qopp_comp. apply rnd_pos_comp; [assumption | lra].
Qed.

Lemma rnd_eq q :
  rnd q == match Qnum q with
           | 0%Z => 0
           | Zpos _ => rnd_pos q
           | Zneg _ => - rnd_pos (- q)
           end.
Proof. unfold rnd. destruct (Qnum q); try apply Qred_correct. reflexivity. Qed.

(** Rounding to nearest is monotone. *)
Lemma rnd_mono p q : p <= q -> rnd p <= rnd q.
Proof.
  intros H. rewrite (rnd_eq p), (rnd_eq q).
  pose proof (Qnum_sign p) as Sp. pose proof (Qnum_sign q) as Sq.
  destruct (Qnum p), (Qnum q); try lra.
  - pose proof (rnd_pos_pos q Sq). lra.
  - apply rnd_pos_mono; assumption.
  - pose proof (rnd_pos_pos (- p) Sp). lra.
  - pose proof (rnd_pos_pos (- p) Sp). pose proof (rnd_pos_pos q Sq). lra.
  - apply Qopp_le_compat. apply rnd_pos_mono; [assumption | lra].
Qed.
Lemma rne_Z k : rne (inject_Z k) = k.
Proof.
  unfold rne. rewrite Qfloor_Z.
  assert (Hc : (inject_Z k - inject_Z k ?= 1 # 2) = Lt).
  { assert (Hz : inject_Z k - inject_Z k == 0) by ring. rewrite Hz. reflexivity. }
  rewrite Hc. reflexivity.
Qed.

Lemma pow2_lt_inv a b : pow2 a < pow2 b -> (a < b)%Z.
Proof.
  intros H. destruct (Z.lt_ge_cases a b) as [L | L]; [exact L | exfalso].
  pose proof (pow2_mono b a L). lra.
Qed.

(** A number with a significand below 2^53 is its own rounding. *)
Lemma rnd_pos_exact N j :
  (0 < N < 2 ^ 53)%Z -> rnd_pos (inject_Z N * pow2 j) == inject_Z N * pow2 j.
Proof.
  intros [HN0 HN].
  set (q := inject_Z N * pow2 j).
  pose proof (pow2_pos j) as Hj.
  assert (HN0' : 0 < inject_Z N) by (rewrite (Zlt_Qlt 0 N) in HN0; exact HN0).
  assert (HN' : inject_Z N < pow2 53).
  { rewrite pow2_Z by lia. rewrite <- Zlt_Qlt. exact HN. }
  assert (Hq : 0 < q) by (apply Qmult_lt_0_compat; assumption).
  destruct (ilog2_spec q Hq) as [H1 _].
  assert (He : (ilog2 q < 53 + j)%Z).
  { apply pow2_lt_inv. rewrite pow2_add.
    apply Qle_lt_trans with q; [exact H1 |].
    unfold q. apply Qmult_lt_compat_r; assumption. }
  unfold rnd_pos. cbv zeta. fold q.
  set (e := ilog2 q) in *.
  assert (Em : q * pow2 (52 - e) == inject_Z (N * 2 ^ (j + 52 - e))).
  { rewrite inject_Z_mult, <- pow2_Z by lia.
    replace (j + 52 - e)%Z with (j + (52 - e))%Z by ring.
    rewrite pow2_add. unfold q. ring. }
  rewrite (rne_comp _ _ Em), rne_Z.
  rewrite inject_Z_mult, <- pow2_Z by lia.
  rewrite <- Qmult_assoc, <- pow2_add.
  replace (j + 52 - e + (e - 52))%Z with j by ring.
  reflexivity.
Qed.

Lemma rnd_exact N j :
  (Z.abs N < 2 ^ 53)%Z -> rnd (inject_Z N * pow2 j) == inject_Z N * pow2 j.
Proof.
  intros HN. rewrite rnd_eq.
  pose proof (Qnum_sign (inject_Z N * pow2 j)) as S.
  pose proof (pow2_pos j) as Hj.
  destruct (Qnum (inject_Z N * pow2 j)).
  - symmetry. exact S.
  - apply rnd_pos_exact. split; [| lia].
    destruct (Z.lt_ge_cases 0 N) as [L | L]; [exact L | exfalso].
    assert (inject_Z N <= 0) by (rewrite (Zle_Qle N 0) in L; exact L).
    assert (inject_Z N * pow2 j <= 0 * pow2 j) by (apply Qmult_le_compat_r; lra).
    lra.
  - assert (L : (N < 0)%Z).
    { destruct (Z.lt_ge_cases N 0) as [L | L]; [exact L | exfalso].
      assert (0 <= inject_Z N) by (rewrite (Zle_Qle 0 N) in L; exact L).
      assert (0 * pow2 j <= inject_Z N * pow2 j) by (apply Qmult_le_compat_r; lra).
      lra. }
    assert (E : - (inject_Z N * pow2 j) == inject_Z (- N) * pow2 j).
    { rewrite inject_Z_opp. ring. }
    rewrite (rnd_pos_comp _ _ S E).
    rewrite rnd_pos_exact by lia.
    rewrite inject_Z_opp. ring.
Qed.

Lemma rnd_Z z : (Z.abs z < 2 ^ 53)%Z -> rnd (inject_Z z) == inject_Z z.
Proof.
  intros H. pose proof (rnd_exact z 0 H) as E.
  assert (E0 : inject_Z z * pow2 0 == inject_Z z) by (unfold pow2; simpl; ring).
  rewrite (rnd_comp _ _ E0) in E. rewrite E. exact E0.
Qed.

Lemma div_mono a b c : 0 < c -> a <= b -> div a c <= div b c.
Proof.
  intros Hc H. unfold div. apply rnd_mono.
  unfold Qdiv. apply Qmult_le_compat_r; [exact H |].
  apply Qlt_le_weak. apply Qinv_lt_0_compat. exact Hc.
Qed.

Lemma ofZ_mono a b : (a <= b)%Z -> ofZ a <= ofZ b.
Proof. intros H. unfold ofZ. apply rnd_mono. rewrite <- Zle_Qle. exact H. Qed.

Lemma sub_Z a b : sub (inject_Z a) (inject_Z b) = ofZ (a - b).
Proof.
  unfold sub, ofZ. apply rnd_comp.
  unfold Z.sub. rewrite inject_Z_plus, inject_Z_opp. reflexivity.
Qed.

(** On the constants of the engine and a few more, [rnd] gives what the
    kernel's binary64 arithmetic gives. *)
Example rnd_is_binary64 :
  Some (lit 0.7) = ofFloat 0x1.6666666666666p-1
  /\ Some (lit 0.5) = ofFloat 0.5
  /\ Some (mul 3 (lit 0.7)) = ofFloat (3 * 0x1.6666666666666p-1)
  /\ Some (div 63 30) = ofFloat (63 / 30)
  /\ Some (div 1450000000 1000000000) = ofFloat (1450000000 / 1000000000)
  /\ Some (mul (mul (div 2500000000 1000000000) 3) (lit 0.7))
     = ofFloat (2500000000 / 1000000000 * 3 * 0x1.6666666666666p-1)
  /\ Some (div (sub 1736899200001 1735689600000) (mul (mul (mul 1000 60) 60) 24))
     = ofFloat ((1736899200001 - 1735689600000) / (1000 * 60 * 60 * 24))
  /\ Some (div (ofZ 9007199254740993) 1000000000)
     = ofFloat (9007199254740992 / 1000000000)
  /\ Some (div (- (1)) 3) = ofFloat (-1 / 3).
Proof. repeat apply conj; vm_compute; reflexivity. Qed.

End NumberFacts.

(** ** Amount thresholds and day counts in exact arithmetic *)

Import NumberFacts.

Lemma billions_geb (c a : Z) (k : Q) :
  Qle_bool k (Number.div (Number.ofZ c) 1000000000) = true ->
  Qle_bool k (Number.div (Number.ofZ (c - 1)) 1000000000) = false ->
  Number.geb (Number.div (Number.ofZ a) 1000000000) k = (c <=? a).
Proof.
  intros Hc Hc'. unfold Number.geb.
  apply Qle_bool_iff in Hc.
  destruct (Z.leb_spec c a) as [L | L].
  - apply Qle_bool_iff.
    apply Qle_trans with (1 := Hc).
    apply div_mono; [reflexivity | apply ofZ_mono; exact L].
  - apply not_true_is_false. intros E. apply Qle_bool_iff in E.
    assert (E' : (k <= Number.div (Number.ofZ (c - 1)) 1000000000)%Q).
    { apply Qle_trans with (1 := E).
      apply div_mono; [reflexivity | apply ofZ_mono; lia]. }
    apply Qle_bool_iff in E'. congruence.
Qed.

(** For an integer amount, [amountInBillions >= 2], [>= 1] and [>= 0.5]
    are comparisons of the amount itself: rounding crosses none of them. *)
Lemma amountInBillions_geb_2 t :
  Number.geb (amountInBillions t) 2 = (2000000000 <=? Tender.amount t).
Proof. apply billions_geb; vm_compute; reflexivity. Qed.

Lemma amountInBillions_geb_1 t :
  Number.geb (amountInBillions t) 1 = (1000000000 <=? Tender.amount t).
Proof. apply billions_geb; vm_compute; reflexivity. Qed.

Lemma amountInBillions_geb_half t :
  Number.geb (amountInBillions t) (Number.lit 0.5) = (500000000 <=? Tender.amount t).
Proof. apply billions_geb; vm_compute; reflexivity. Qed.

Lemma dayLength_eq : dayLength = 86400000%Q.
Proof. vm_compute. reflexivity. Qed.

Lemma Qceiling_ge x k : (inject_Z k - 1 < x)%Q -> k <= Qceiling x.
Proof.
  intros H. pose proof (Qle_ceiling x) as Hx.
  destruct (Z.le_gt_cases k (Qceiling x)) as [L | L]; [exact L | exfalso].
  assert (L' : Qceiling x <= k - 1) by lia.
  rewrite Zle_Qle in L'.
  assert (E : (inject_Z (k - 1) == inject_Z k - 1)%Q).
  { unfold Z.sub. rewrite inject_Z_plus. reflexivity. }
  rewrite E in L'. lra.
Qed.

Lemma Qceiling_le x k : (x <= inject_Z k)%Q -> Qceiling x <= k.
Proof.
  intros H. apply Qceiling_resp_le in H. rewrite Qceiling_Z in H. exact H.
Qed.

(** Within 2^52 milliseconds (some 142 000 years) the rounded quotient has the
    ceiling of the exact one. *)
Lemma ceil_days_exact (x : Z) :
  Z.abs x <= 2 ^ 52 ->
  Number.ceil (Number.div (Number.ofZ x) dayLength) = Qceiling (x # 86400000).
Proof.
  intros Hx. rewrite dayLength_eq. unfold Number.ceil, Number.div, Number.ofZ.
  assert (Er : (Number.rnd (inject_Z x) / 86400000 == x # 86400000)%Q).
  { rewrite rnd_Z by lia. rewrite (Qmake_Qdiv x 86400000). reflexivity. }
  rewrite (rnd_comp _ _ Er).
  set (q := (x # 86400000)%Q).
  set (k := Qceiling q).
  pose proof (Qle_ceiling q) as Hk1. pose proof (Qceiling_lt q) as Hk2. fold k in Hk1, Hk2.
  assert (Hxk : (k - 1) * 86400000 < x <= k * 86400000).
  { unfold q in Hk1, Hk2. unfold Qle in Hk1. unfold Qlt in Hk2. cbn in Hk1, Hk2. lia. }
  assert (Hkb : Z.abs k < 2 ^ 26) by lia.
  apply Z.le_antisymm.
  - apply Qceiling_le.
    apply Qle_trans with (Number.rnd (inject_Z k)).
    + apply rnd_mono. exact Hk1.
    + rewrite rnd_Z by lia. apply Qle_refl.
  - apply Qceiling_ge.
    set (y := (inject_Z ((k - 1) * 2 ^ 27 + 1) * Number.pow2 (- 27))%Q).
    assert (Hy : (Number.rnd y == y)%Q) by (apply rnd_exact; lia).
    assert (Hyq : (y <= q)%Q).
    { unfold y, q, Number.pow2. change (2 ^ (- 27))%Q with (1 # 134217728)%Q.
      unfold Qle, Qmult. cbn [Qnum Qden inject_Z]. lia. }
    assert (Hky : (inject_Z k - 1 < y)%Q).
    { unfold y, Number.pow2. change (2 ^ (- 27))%Q with (1 # 134217728)%Q.
      unfold Qlt, Qmult, Qminus, Qplus, Qopp. cbn [Qnum Qden inject_Z]. lia. }
    apply Qlt_le_trans with (1 := Hky).
    rewrite <- Hy. apply rnd_mono. exact Hyq.
Qed.

Lemma daysToDeadline_exact h t :
  Z.abs (Tender.deadline t - Host.now h) <= 2 ^ 52 ->
  daysToDeadline h t = Qceiling ((Tender.deadline t - Host.now h) # 86400000).
Proof.
  intros H. unfold daysToDeadline. rewrite sub_Z. apply ceil_days_exact. exact H.
Qed.

Lemma executionDays_exact t :
  Z.abs (Tender.executionEnd t - Tender.executionStart t) <= 2 ^ 52 ->
  executionDays t = Qceiling ((Tender.executionEnd t - Tender.executionStart t) # 86400000).
Proof.
  intros H. unfold executionDays. rewrite sub_Z. apply ceil_days_exact. exact H.
Qed.

(** ** What the rules leave in the four locals *)

Ltac split_rules h t :=
  unfold seasonalCond, deadlineCond, timelineCond, combinedCond, medicalCond,
    runRules, itRule, medicalRule, combinedRule, timelineRule, deadlineRule,
    financialRule, seasonalRule;
  destruct (isWinterExecution h t && includes winterRiskCategories (Tender.category t));
  destruct (Number.geb (amountInBillions t) 2);
  destruct (Number.geb (amountInBillions t) 1);
  destruct ((daysToDeadline h t <? 10) && (daysToDeadline h t >? 0));
  destruct (Tender.category t =? "construction")%string;
  destruct (Number.geb (amountInBillions t) (Number.lit 0.5));
  destruct (Number.ltb (monthsForExecution t)
                       (Number.mul (expectedMonths t) (Number.lit 0.7)));
  destruct (Tender.category t =? "medical")%string;
  destruct (Tender.category t =? "it")%string.

Lemma runRules_riskScore h t :
  State.riskScore (runRules h t) =
    (if seasonalCond h t then 35 else 0)
    + (if Number.geb (amountInBillions t) 2 then 25
       else if Number.geb (amountInBillions t) 1 then 15 else 0)
    + (if deadlineCond h t then 15 else 0)
    + (if timelineCond t then 20 else 0)
    + (if combinedCond h t then 20 else 0).
Proof. split_rules h t; reflexivity. Qed.

Lemma runRules_risks h t :
  State.risks (runRules h t) =
    (if seasonalCond h t then [seasonalFinding h t] else [])
    ++ (if Number.geb (amountInBillions t) 2 then [financialFinding t] else [])
    ++ (if timelineCond t then [timelineFinding t] else [])
    ++ (if combinedCond h t then [combinedFinding t] else []).
Proof. split_rules h t; reflexivity. Qed.

Lemma runRules_warnings h t :
  State.warnings (runRules h t) =
    (if Number.geb (amountInBillions t) 2 then []
     else if Number.geb (amountInBillions t) 1 then [financialWarning t] else [])
    ++ (if deadlineCond h t then [deadlineWarning h t] else [])
    ++ (if medicalCond t then [categoryWarning] else []).
Proof. split_rules h t; reflexivity. Qed.

Lemma runRules_recommendations h t :
  State.recommendations (runRules h t) =
    (if seasonalCond h t then [timingRecommendation] else [])
    ++ (if Number.geb (amountInBillions t) 2 then [controlRecommendation] else [])
    ++ (if combinedCond h t then [guaranteeRecommendation] else [])
    ++ (if medicalCond t then [currencyRecommendation] else [])
    ++ (if (Tender.category t =? "it")%string then [supportRecommendation] else []).
Proof. split_rules h t; reflexivity. Qed.

(** ** The returned assessment *)

Lemma analyze_risks h t :
  Assessment.risks (analyzeTenderRisks h t) = State.risks (runRules h t).
Proof. reflexivity. Qed.

Lemma analyze_warnings h t :
  Assessment.warnings (analyzeTenderRisks h t) = State.warnings (runRules h t).
Proof. reflexivity. Qed.

Lemma analyze_recommendations h t :
  Assessment.recommendations (analyzeTenderRisks h t) = State.recommendations (runRules h t).
Proof. reflexivity. Qed.

Lemma analyze_riskScore h t :
  Assessment.riskScore (analyzeTenderRisks h t) = Z.min (State.riskScore (runRules h t)) 100.
Proof. reflexivity. Qed.

Lemma analyze_riskLevel h t :
  Assessment.riskLevel (analyzeTenderRisks h t)
  = riskLevelOf (Assessment.riskScore (analyzeTenderRisks h t)).
Proof. reflexivity. Qed.

Lemma analyze_summary h t :
  Assessment.summary (analyzeTenderRisks h t)
  = generateSummary t (Assessment.riskScore (analyzeTenderRisks h t))
      (Assessment.riskLevel (analyzeTenderRisks h t))
      (Assessment.risks (analyzeTenderRisks h t))
      (Assessment.warnings (analyzeTenderRisks h t)).
Proof. reflexivity. Qed.

(** The deadline rule fires exactly for 1 to 9 days. *)
Lemma deadlineCond_iff h t :
  deadlineCond h t = true <-> 0 < daysToDeadline h t < 10.
Proof.
  unfold deadlineCond. rewrite andb_true_iff, Z.ltb_lt, Z.gtb_ltb, Z.ltb_lt. lia.
Qed.

(** A deadline a whole number of days ahead, up to some 142 000 years. *)
Lemma daysToDeadline_whole h t n :
  Tender.deadline t = Host.now h + n * Date.msPerDay ->
  Z.abs n <= 52000000 ->
  daysToDeadline h t = n.
Proof.
  intros Hd Hn. rewrite daysToDeadline_exact.
  - rewrite Hd. replace (Host.now h + n * Date.msPerDay - Host.now h) with (n * 86400000).
    + unfold Qceiling, Qfloor, Qopp. cbn [Qnum Qden].
      rewrite <- Z.mul_opp_l, Z.div_mul by discriminate. lia.
    + unfold Date.msPerDay. ring.
  - rewrite Hd. unfold Date.msPerDay. lia.
Qed.

(** For 2.5 billion the timeline test compares the execution period with
    157.5 days. *)
Lemma timeline_threshold t :
  Tender.amount t = 2500000000 ->
  Number.ltb (monthsForExecution t) (Number.mul (expectedMonths t) (Number.lit 0.7))
  = (executionDays t <? 158).
Proof.
  intros Ha. unfold expectedMonths, amountInBillions, monthsForExecution. rewrite Ha.
  replace (Number.mul (Number.mul (Number.div (Number.ofZ 2500000000) 1000000000) 3)
                      (Number.lit 0.7)) with (21 # 4)%Q by (vm_compute; reflexivity).
  unfold Number.ltb.
  destruct (Z.ltb_spec (executionDays t) 158) as [L | L].
  - apply negb_true_iff. apply not_true_is_false. intros E. apply Qle_bool_iff in E.
    assert (U : (Number.div (inject_Z (executionDays t)) 30 <= Number.div (inject_Z 157) 30)%Q).
    { apply div_mono; [reflexivity | rewrite <- Zle_Qle; lia]. }
    assert (V : (Number.div (inject_Z 157) 30 < 21 # 4)%Q) by (vm_compute; reflexivity).
    lra.
  - apply negb_false_iff. apply Qle_bool_iff.
    apply Qle_trans with (Number.div (inject_Z 158) 30).
    + apply Qle_bool_iff. vm_compute. reflexivity.
    + apply div_mono; [reflexivity | rewrite <- Zle_Qle; lia].
Qed.

(** C1, as amended.  For a construction tender of 2 500 000 000 executed from
    15 January to 1 March with the deadline five days after [now], the
    assessment holds the seasonal, the financial and the combined finding and
    the deadline warning, and its level is high.  An execution period below
    158 days (1 March of the same year) also fires the timeline rule: the sum
    115 is capped and the score is 100.  From 158 days on (1 March of a later
    year) the score is 35 + 25 + 15 + 20 = 95. *)
Theorem end_to_end_assessment h t :
  endToEndScenario h t ->
  let r := analyzeTenderRisks h t in
  Assessment.risks r
  = [seasonalFinding h t; financialFinding t]
    ++ (if executionDays t <? 158 then [timelineFinding t] else [])
    ++ [combinedFinding t]
  /\ Assessment.warnings r = [deadlineWarning h t]
  /\ Assessment.riskScore r = (if executionDays t <? 158 then 100 else 95)
  /\ Assessment.riskLevel r = RiskLevel.high.
Proof.
  intros (Hc & Ha & Hsm & _ & Hem & _ & Hd) r.
  assert (S : seasonalCond h t = true).
  { unfold seasonalCond, isWinterExecution, startMonth. rewrite Hsm, Hc. reflexivity. }
  assert (A2 : Number.geb (amountInBillions t) 2 = true).
  { rewrite amountInBillions_geb_2, Ha. reflexivity. }
  assert (A1 : Number.geb (amountInBillions t) 1 = true).
  { rewrite amountInBillions_geb_1, Ha. reflexivity. }
  assert (D : deadlineCond h t = true).
  { apply deadlineCond_iff. rewrite (daysToDeadline_whole h t 5 Hd); lia. }
  assert (T : timelineCond t = (executionDays t <? 158)).
  { unfold timelineCond. rewrite amountInBillions_geb_half, timeline_threshold, Hc, Ha by exact Ha.
    reflexivity. }
  assert (C : combinedCond h t = true).
  { unfold combinedCond. fold (seasonalCond h t). rewrite S, A1. reflexivity. }
  assert (M : medicalCond t = false).
  { unfold medicalCond. rewrite Hc. reflexivity. }
  subst r.
  rewrite analyze_riskLevel, analyze_riskScore, analyze_risks, analyze_warnings.
  rewrite runRules_riskScore, runRules_risks, runRules_warnings.
  rewrite S, A2, D, T, C, M.
  destruct (executionDays t <? 158); repeat split; reflexivity.
Qed.

(** At the scenario's own dates the score is 100, not 95: the timeline rule
    fires too. *)
Lemma end_to_end_score_is_100 :
  endToEndScenario utcHost bridgeTender
  /\ Assessment.riskScore (analyzeTenderRisks utcHost bridgeTender) = 100
  /\ Assessment.riskScore (analyzeTenderRisks utcHost bridgeTender) <> 95
  /\ In FindingType.timeline
        (map Finding.type (Assessment.risks (analyzeTenderRisks utcHost bridgeTender))).
Proof.
  apply conj; [| apply conj; [| apply conj]].
  - unfold endToEndScenario. repeat apply conj; vm_compute; reflexivity.
  - vm_compute. reflexivity.
  - vm_compute. discriminate.
  - vm_compute. tauto.
Qed.

Lemma end_to_end_assessment_witness :
  endToEndScenario utcHost longBridgeTender
  /\ Assessment.riskScore (analyzeTenderRisks utcHost longBridgeTender)
     = (if executionDays longBridgeTender <? 158 then 100 else 95)
  /\ executionDays longBridgeTender = 410.
Proof.
  assert (H : endToEndScenario utcHost longBridgeTender).
  { unfold endToEndScenario. repeat apply conj; vm_compute; reflexivity. }
  apply conj; [exact H |].
  apply conj; [apply (end_to_end_assessment utcHost longBridgeTender H) |].
  vm_compute. reflexivity.
Defined.

(** ** The clock and the time zone *)

Lemma allFrom_spec n f k :
  allFrom n f k = true -> forall x, k <= x < k + Z.of_nat n -> f x = true.
Proof.
  revert k. induction n as [| n IH]; intros k H x Hx.
  - cbn in Hx. lia.
  - cbn [allFrom] in H. apply andb_true_iff in H. destruct H as [H1 H2].
    destruct (Z.eq_dec x k) as [E | E]; [subst; exact H1 |].
    apply (IH (k + 1) H2). lia.
Qed.

(** Checked on each of the 146097 days of the cycle. *)
Lemma validMonthDay_cycle : allFrom (Z.to_nat 146097) validMonthDay 0 = true.
Proof. vm_compute. reflexivity. Qed.

Lemma civil_month_day day :
  1 <= snd (fst (Date.civil day)) <= 12 /\ 1 <= snd (Date.civil day) <= 31.
Proof.
  set (doe := day + 719468 - (day + 719468) / 146097 * 146097).
  assert (R : 0 <= doe < 146097).
  { unfold doe. pose proof (Z.mod_pos_bound (day + 719468) 146097 eq_refl) as B.
    rewrite Z.mod_eq in B by discriminate. lia. }
  assert (V : validMonthDay doe = true).
  { apply (allFrom_spec _ _ 0 validMonthDay_cycle). rewrite Z2Nat.id; lia. }
  assert (E : (snd (fst (Date.civil day)), snd (Date.civil day)) = monthDayOfCycle doe)
    by reflexivity.
  unfold validMonthDay in V. rewrite <- E in V.
  rewrite !andb_true_iff, !Z.leb_le in V. tauto.
Qed.

Lemma getMonth_range h time : 0 <= getMonth h time <= 11.
Proof.
  unfold getMonth, Date.MonthFromTime.
  pose proof (civil_month_day (Date.Day (time + Host.LocalTZA h time))) as [M _]. lia.
Qed.

Lemma month_cases m :
  0 <= m <= 11 ->
  m = 0 \/ m = 1 \/ m = 2 \/ m = 3 \/ m = 4 \/ m = 5 \/ m = 6 \/ m = 7 \/ m = 8
  \/ m = 9 \/ m = 10 \/ m = 11.
Proof. lia. Qed.









(** One tender, two clock readings sixty days apart, same zone: the scores
    differ, so the result is not a function of the tender. *)
Lemma assessment_reads_the_clock :
  Host.LocalTZA utcHost = Host.LocalTZA earlierHost
  /\ Assessment.riskScore (analyzeTenderRisks utcHost clinicTender) = 15
  /\ Assessment.riskScore (analyzeTenderRisks earlierHost clinicTender) = 0
  /\ analyzeTenderRisks utcHost clinicTender <> analyzeTenderRisks earlierHost clinicTender.
Proof.
  apply conj; [| apply conj; [| apply conj]].
  - reflexivity.
  - vm_compute. reflexivity.
  - vm_compute. reflexivity.
  - intros E.
    assert (E' : Assessment.riskScore (analyzeTenderRisks utcHost clinicTender)
                 = Assessment.riskScore (analyzeTenderRisks earlierHost clinicTender))
      by (rewrite E; reflexivity).
    vm_compute in E'. discriminate.
Qed.

(** ** Score and level *)

Ltac split_conds h t :=
  destruct (seasonalCond h t);
  destruct (Number.geb (amountInBillions t) 2);
  destruct (Number.geb (amountInBillions t) 1);
  destruct (deadlineCond h t);
  destruct (timelineCond t);
  destruct (combinedCond h t);
  destruct (medicalCond t).

(** C3.  The score of every assessment lies in [0, 100].  When the seasonal,
    the financial (2 billion), the timeline and the combined finding and the
    deadline warning are all present, the rules add up to
    35 + 25 + 15 + 20 + 20 = 115, the score is exactly 100 and the level is
    high. *)
Theorem riskScore_clamped h t :
  let r := analyzeTenderRisks h t in
  0 <= Assessment.riskScore r <= 100
  /\ (map Finding.type (Assessment.risks r)
      = [FindingType.seasonal; FindingType.financial; FindingType.timeline; FindingType.combined] ->
      In FindingType.deadline (map Finding.type (Assessment.warnings r)) ->
      State.riskScore (runRules h t) = 115
      /\ Assessment.riskScore r = 100
      /\ Assessment.riskLevel r = RiskLevel.high).
Proof.
  cbv zeta.
  rewrite analyze_riskLevel, analyze_riskScore, analyze_risks, analyze_warnings.
  rewrite runRules_riskScore, runRules_risks, runRules_warnings.
  split.
  - split_conds h t; lia.
  - split_conds h t; cbn [app map Finding.type seasonalFinding financialFinding
      timelineFinding combinedFinding financialWarning deadlineWarning categoryWarning In];
      intros Hr Hw; try discriminate Hr;
      try (repeat destruct Hw as [Hw | Hw]; try discriminate Hw; contradiction);
      repeat split; reflexivity.
Qed.

Lemma riskScore_clamped_witness :
  State.riskScore (runRules utcHost bridgeTender) = 115
  /\ Assessment.riskScore (analyzeTenderRisks utcHost bridgeTender) = 100
  /\ Assessment.riskLevel (analyzeTenderRisks utcHost bridgeTender) = RiskLevel.high.
Proof.
  apply (riskScore_clamped utcHost bridgeTender).
  - vm_compute. reflexivity.
  - vm_compute. tauto.
Defined.

(** C4.  The level is read off the capped score: below 30 low, from 30 to 59
    medium, from 60 on high; in particular 29 is low, 30 and 59 are medium
    and 60 is high. *)
Theorem riskLevel_boundaries h t :
  let r := analyzeTenderRisks h t in
  Assessment.riskLevel r = riskLevelOf (Assessment.riskScore r)
  /\ Assessment.riskScore r = Z.min (State.riskScore (runRules h t)) 100
  /\ (Assessment.riskScore r < 30 -> Assessment.riskLevel r = RiskLevel.low)
  /\ (30 <= Assessment.riskScore r < 60 -> Assessment.riskLevel r = RiskLevel.medium)
  /\ (60 <= Assessment.riskScore r -> Assessment.riskLevel r = RiskLevel.high)
  /\ riskLevelOf 29 = RiskLevel.low
  /\ riskLevelOf 30 = RiskLevel.medium
  /\ riskLevelOf 59 = RiskLevel.medium
  /\ riskLevelOf 60 = RiskLevel.high
  /\ (forall s, riskLevelOf s = RiskLevel.low <-> s < 30)
  /\ (forall s, riskLevelOf s = RiskLevel.medium <-> 30 <= s < 60)
  /\ (forall s, riskLevelOf s = RiskLevel.high <-> 60 <= s).
Proof.
  cbv zeta. rewrite analyze_riskLevel.
  assert (L : forall s, (riskLevelOf s = RiskLevel.low <-> s < 30)
                        /\ (riskLevelOf s = RiskLevel.medium <-> 30 <= s < 60)
                        /\ (riskLevelOf s = RiskLevel.high <-> 60 <= s)).
  { intros s. unfold riskLevelOf.
    destruct (Z.geb_spec s 60); destruct (Z.geb_spec s 30);
      repeat split; intros; try discriminate; try lia; reflexivity. }
  repeat apply conj; try reflexivity; try (intros; apply L; assumption);
    intros s; apply L.
Qed.

Lemma riskLevel_boundaries_witness :
  Assessment.riskScore (analyzeTenderRisks utcHost clinicTender) = 15
  /\ Assessment.riskLevel (analyzeTenderRisks utcHost clinicTender) = RiskLevel.low
  /\ Assessment.riskScore (analyzeTenderRisks utcHost roadTender) = 35
  /\ Assessment.riskLevel (analyzeTenderRisks utcHost roadTender) = RiskLevel.medium.
Proof.
  assert (H1 : Assessment.riskScore (analyzeTenderRisks utcHost clinicTender) = 15)
    by (vm_compute; reflexivity).
  assert (H2 : Assessment.riskScore (analyzeTenderRisks utcHost roadTender) = 35)
    by (vm_compute; reflexivity).
  pose proof (riskLevel_boundaries utcHost clinicTender) as (_ & _ & L & _).
  pose proof (riskLevel_boundaries utcHost roadTender) as (_ & _ & _ & M & _).
  apply conj; [exact H1 |]. apply conj; [apply L; rewrite H1; reflexivity |].
  apply conj; [exact H2 |]. apply M. rewrite H2. split; [discriminate | reflexivity].
Defined.

(** ** The financial rule *)

Lemma financialRule_eq t s :
  financialRule t s =
    if 2000000000 <=? Tender.amount t then
      State.pushRecommendation controlRecommendation
        (State.pushRisk (financialFinding t) (State.addScore 25 s))
    else if 1000000000 <=? Tender.amount t then
      State.pushWarning (financialWarning t) (State.addScore 15 s)
    else s.
Proof.
  unfold financialRule. rewrite amountInBillions_geb_2, amountInBillions_geb_1. reflexivity.
Qed.

(** C5.  The two financial branches exclude each other.  From 2 billion on
    the rule adds 25, the high financial finding and the control
    recommendation; from 1 billion to below 2 billion it adds 15 and the
    medium financial warning; below 1 billion it changes nothing.  No
    assessment holds both the finding and the warning, and for 1.5 billion
    the rule leaves the warning and 15 points alone. *)
Theorem financial_branches_exclusive h t :
  let r := analyzeTenderRisks h t in
  (forall s,
      financialRule t s =
        if 2000000000 <=? Tender.amount t then
          State.pushRecommendation controlRecommendation
            (State.pushRisk (financialFinding t) (State.addScore 25 s))
        else if 1000000000 <=? Tender.amount t then
          State.pushWarning (financialWarning t) (State.addScore 15 s)
        else s)
  /\ (In FindingType.financial (map Finding.type (Assessment.risks r))
      <-> 2000000000 <= Tender.amount t)
  /\ (In RecommendationType.control
         (map Recommendation.type (Assessment.recommendations r))
      <-> 2000000000 <= Tender.amount t)
  /\ (In FindingType.financial (map Finding.type (Assessment.warnings r))
      <-> 1000000000 <= Tender.amount t < 2000000000)
  /\ ~ (In FindingType.financial (map Finding.type (Assessment.risks r))
        /\ In FindingType.financial (map Finding.type (Assessment.warnings r)))
  /\ Finding.severity (financialFinding t) = Severity.high
  /\ Finding.severity (financialWarning t) = Severity.medium
  /\ (Tender.amount t = 1500000000 ->
      financialRule t State.init
      = {| State.risks := [];
           State.warnings := [financialWarning t];
           State.recommendations := [];
           State.riskScore := 15 |}).
Proof.
  cbv zeta.
  assert (R : In FindingType.financial (map Finding.type (Assessment.risks (analyzeTenderRisks h t)))
              <-> 2000000000 <= Tender.amount t).
  { rewrite analyze_risks, runRules_risks, amountInBillions_geb_2.
    rewrite <- Z.leb_le.
    split_conds h t; destruct (2000000000 <=? Tender.amount t);
      cbn [app map In Finding.type seasonalFinding financialFinding timelineFinding
             combinedFinding]; split; intros H; try reflexivity; try tauto;
      try discriminate H;
      repeat destruct H as [H | H]; try discriminate H; try contradiction. }
  assert (W : In FindingType.financial (map Finding.type (Assessment.warnings (analyzeTenderRisks h t)))
              <-> 1000000000 <= Tender.amount t < 2000000000).
  { rewrite analyze_warnings, runRules_warnings, amountInBillions_geb_2, amountInBillions_geb_1.
    destruct (Z.leb_spec 2000000000 (Tender.amount t)) as [L2 | L2];
      destruct (Z.leb_spec 1000000000 (Tender.amount t)) as [L1 | L1];
      destruct (deadlineCond h t); destruct (medicalCond t);
      cbn [app map In Finding.type financialWarning deadlineWarning categoryWarning];
      split; intros H; try lia; try tauto;
      repeat destruct H as [H | H]; try discriminate H; try contradiction. }
  repeat apply conj.
  - intros s. apply financialRule_eq.
  - apply R.
  - apply R.
  - rewrite analyze_recommendations, runRules_recommendations, amountInBillions_geb_2.
    rewrite <- Z.leb_le. intros H.
    destruct (2000000000 <=? Tender.amount t); [reflexivity | exfalso].
    revert H.
    destruct (seasonalCond h t); destruct (combinedCond h t); destruct (medicalCond t);
      destruct (Tender.category t =? "it")%string;
      cbn [app map In Recommendation.type timingRecommendation controlRecommendation
             guaranteeRecommendation currencyRecommendation supportRecommendation];
      intros H; repeat destruct H as [H | H]; try discriminate H; try contradiction.
  - rewrite analyze_recommendations, runRules_recommendations, amountInBillions_geb_2.
    rewrite <- Z.leb_le. intros H. rewrite H.
    rewrite !map_app, !in_app_iff. right. left. left. reflexivity.
  - apply W.
  - apply W.
  - intros [Hr Hw]. apply R in Hr. apply W in Hw. lia.
  - reflexivity.
  - reflexivity.
  - intros Ha. rewrite financialRule_eq, Ha. reflexivity.
Qed.

Lemma financial_branches_exclusive_witness :
  Tender.amount roadTender = 1500000000
  /\ financialRule roadTender State.init
     = {| State.risks := [];
          State.warnings := [financialWarning roadTender];
          State.recommendations := [];
          State.riskScore := 15 |}.
Proof.
  apply conj; [reflexivity |].
  apply (financial_branches_exclusive utcHost roadTender). reflexivity.
Defined.

(** ** The deadline rule *)

Lemma ceil_days_mono (x y : Z) :
  x <= y ->
  Number.ceil (Number.div (Number.ofZ x) dayLength)
  <= Number.ceil (Number.div (Number.ofZ y) dayLength).
Proof.
  intros H. unfold Number.ceil. apply Qceiling_resp_le.
  apply div_mono; [reflexivity | apply ofZ_mono; exact H].
Qed.

(** Whatever the two instants, the test [daysToDeadline < 10 &&
    daysToDeadline > 0] on the rounded day count is the test on the exact
    ceiling: beyond 2^52 ms both counts are far outside 1..9. *)
Lemma deadlineCond_exact h t :
  deadlineCond h t
  = ((0 <? Qceiling ((Tender.deadline t - Host.now h) # 86400000))
     && (Qceiling ((Tender.deadline t - Host.now h) # 86400000) <? 10)).
Proof.
  set (x := Tender.deadline t - Host.now h).
  destruct (Z_le_gt_dec (Z.abs x) (2 ^ 52)) as [Hx | Hx].
  - unfold deadlineCond. rewrite (daysToDeadline_exact h t Hx). fold x.
    rewrite Z.gtb_ltb. apply andb_comm.
  - assert (Hd : daysToDeadline h t = Number.ceil (Number.div (Number.ofZ x) dayLength)).
    { unfold daysToDeadline. rewrite sub_Z. reflexivity. }
    assert (Hq : forall k, (inject_Z k <= x # 86400000)%Q <-> k * 86400000 <= x).
    { intros k. unfold Qle. cbn [Qnum Qden inject_Z]. lia. }
    unfold deadlineCond. rewrite Hd.
    destruct (Z_le_gt_dec 0 x) as [Hpos | Hneg].
    + (* far in the future *)
      assert (L : 52124996 <= Number.ceil (Number.div (Number.ofZ x) dayLength)).
      { apply Z.le_trans with (Number.ceil (Number.div (Number.ofZ (2 ^ 52)) dayLength)).
        - vm_compute. discriminate.
        - apply ceil_days_mono. lia. }
      assert (E : 10 <= Qceiling (x # 86400000)).
      { apply Qceiling_ge. apply Qlt_le_trans with (inject_Z 10); [reflexivity |].
        apply Hq. lia. }
      rewrite (proj2 (Z.ltb_ge _ _)) by lia.
      rewrite (proj2 (Z.ltb_ge (Qceiling (x # 86400000)) 10)) by lia.
      rewrite andb_false_r. reflexivity.
    + (* far in the past *)
      assert (L : Number.ceil (Number.div (Number.ofZ x) dayLength) <= - 52124995).
      { apply Z.le_trans with (Number.ceil (Number.div (Number.ofZ (- 2 ^ 52)) dayLength)).
        - apply ceil_days_mono. lia.
        - vm_compute. discriminate. }
      assert (E : Qceiling (x # 86400000) <= 0).
      { apply Qceiling_le. unfold Qle. cbn [Qnum Qden inject_Z]. lia. }
      rewrite Z.gtb_ltb.
      rewrite (proj2 (Z.ltb_ge 0 (Number.ceil (Number.div (Number.ofZ x) dayLength)))) by lia.
      rewrite (proj2 (Z.ltb_ge 0 (Qceiling (x # 86400000)))) by lia.
      rewrite andb_false_r. reflexivity.
Qed.

(** C6.  With [d = ceil((deadline - now) / 1 day)], the deadline rule fires
    exactly when [0 < d < 10]: it then adds 15 and a medium deadline warning
    whose description cites [d]; for [d <= 0] (the deadline is today or has
    passed) and for [d >= 10] it changes nothing.  The 15 are in the score:
    the running score after the rule is the score before it plus 15 or plus
    0, the raw sum of the assessment has the term 15 exactly for
    [0 < d < 10], and when the rule fires the returned score is at least
    15. *)
Theorem deadline_pressure h t :
  let d := Qceiling ((Tender.deadline t - Host.now h) # 86400000) in
  let r := analyzeTenderRisks h t in
  (forall s,
      deadlineRule h t s =
        if (0 <? d) && (d <? 10) then
          State.pushWarning (deadlineWarning h t) (State.addScore 15 s)
        else s)
  /\ (forall s,
        State.riskScore (deadlineRule h t s)
        = State.riskScore s + (if (0 <? d) && (d <? 10) then 15 else 0))
  /\ Assessment.riskScore r
     = Z.min ((if seasonalCond h t then 35 else 0)
              + (if Number.geb (amountInBillions t) 2 then 25
                 else if Number.geb (amountInBillions t) 1 then 15 else 0)
              + (if (0 <? d) && (d <? 10) then 15 else 0)
              + (if timelineCond t then 20 else 0)
              + (if combinedCond h t then 20 else 0)) 100
  /\ (0 < d < 10 -> 15 <= Assessment.riskScore r)
  /\ (In (deadlineWarning h t) (Assessment.warnings r) <-> 0 < d < 10)
  /\ (In FindingType.deadline (map Finding.type (Assessment.warnings r)) <-> 0 < d < 10)
  /\ Finding.type (deadlineWarning h t) = FindingType.deadline
  /\ Finding.severity (deadlineWarning h t) = Severity.medium
  /\ (0 < d < 10 ->
      daysToDeadline h t = d
      /\ Finding.description (deadlineWarning h t)
         = [Lit "До окончания приема заявок осталось ";
            Lit (Number.toString d);
            Lit " дней. Короткие сроки могут ограничить конкуренцию."])
  /\ (d <= 0 -> forall s, deadlineRule h t s = s)
  /\ (Z.abs (Tender.deadline t - Host.now h) <= 2 ^ 52 -> daysToDeadline h t = d).
Proof.
  intros d r. subst r.
  pose proof (deadlineCond_exact h t) as Hc. fold d in Hc.
  assert (Hi : ((0 <? d) && (d <? 10)) = true <-> 0 < d < 10).
  { rewrite andb_true_iff, !Z.ltb_lt. tauto. }
  assert (Hr : forall s,
             deadlineRule h t s =
               if (0 <? d) && (d <? 10) then
                 State.pushWarning (deadlineWarning h t) (State.addScore 15 s)
               else s).
  { intros s. rewrite <- Hc. reflexivity. }
  assert (Hx : 0 < d < 10 -> daysToDeadline h t = d).
  { intros Hd. apply daysToDeadline_exact.
    pose proof (Qle_ceiling ((Tender.deadline t - Host.now h) # 86400000)) as U.
    pose proof (Qceiling_lt ((Tender.deadline t - Host.now h) # 86400000)) as V.
    fold d in U, V. unfold Qle in U. unfold Qlt in V. cbn in U, V. lia. }
  assert (Hs : Assessment.riskScore (analyzeTenderRisks h t)
               = Z.min ((if seasonalCond h t then 35 else 0)
                        + (if Number.geb (amountInBillions t) 2 then 25
                           else if Number.geb (amountInBillions t) 1 then 15 else 0)
                        + (if (0 <? d) && (d <? 10) then 15 else 0)
                        + (if timelineCond t then 20 else 0)
                        + (if combinedCond h t then 20 else 0)) 100).
  { rewrite analyze_riskScore, runRules_riskScore, Hc. reflexivity. }
  split; [exact Hr |].
  split; [| split; [exact Hs | split]].
  { intros s. rewrite Hr.
    destruct ((0 <? d) && (d <? 10));
      cbn [State.pushWarning State.addScore State.riskScore]; lia. }
  { intros Hd. rewrite Hs. rewrite (proj2 Hi Hd).
    destruct (seasonalCond h t); destruct (Number.geb (amountInBillions t) 2);
      destruct (Number.geb (amountInBillions t) 1); destruct (timelineCond t);
      destruct (combinedCond h t); cbn; lia. }
  split; [| split; [| split; [| split; [| split; [| split]]]]].
  - rewrite <- Hi, <- Hc, analyze_warnings, runRules_warnings.
    destruct (Number.geb (amountInBillions t) 2);
      destruct (Number.geb (amountInBillions t) 1);
      destruct (deadlineCond h t); destruct (medicalCond t);
      cbn [app In]; split; intros H; try reflexivity; try tauto;
      repeat destruct H as [H | H]; try discriminate H; try contradiction.
  - rewrite <- Hi, <- Hc, analyze_warnings, runRules_warnings.
    destruct (Number.geb (amountInBillions t) 2);
      destruct (Number.geb (amountInBillions t) 1);
      destruct (deadlineCond h t); destruct (medicalCond t);
      cbn [app map In Finding.type financialWarning deadlineWarning categoryWarning];
      split; intros H; try reflexivity; try tauto;
      repeat destruct H as [H | H]; try discriminate H; try contradiction.
  - reflexivity.
  - reflexivity.
  - intros Hd. split; [exact (Hx Hd) |].
    unfold deadlineWarning. cbn [Finding.description]. rewrite (Hx Hd). reflexivity.
  - intros Hle s. rewrite Hr.
    destruct (Z.ltb_spec 0 d) as [L | L]; [lia | reflexivity].
  - apply daysToDeadline_exact.
Qed.

Lemma deadline_pressure_witness :
  Qceiling ((Tender.deadline bridgeTender - Host.now utcHost) # 86400000) = 5
  /\ daysToDeadline utcHost bridgeTender
     = Qceiling ((Tender.deadline bridgeTender - Host.now utcHost) # 86400000)
  /\ deadlineRule utcHost bridgeTender State.init
     = State.pushWarning (deadlineWarning utcHost bridgeTender) (State.addScore 15 State.init)
  /\ State.riskScore (deadlineRule utcHost bridgeTender State.init) = 15
  /\ 15 <= Assessment.riskScore (analyzeTenderRisks utcHost bridgeTender).
Proof.
  assert (H5 : Qceiling ((Tender.deadline bridgeTender - Host.now utcHost) # 86400000) = 5)
    by (vm_compute; reflexivity).
  pose proof (deadline_pressure utcHost bridgeTender)
    as (Hr & Hs & _ & Hm & _ & _ & _ & _ & Hd & _).
  apply conj; [exact H5 |]. apply conj; [| apply conj; [| apply conj]].
  - apply Hd. rewrite H5. split; reflexivity.
  - rewrite Hr, H5. reflexivity.
  - rewrite Hs, H5. reflexivity.
  - apply Hm. rewrite H5. split; reflexivity.
Defined.

(** ** Severities *)

(** C9.  Every entry of [risks] has severity high or critical, the combined
    finding being the only critical one; every entry of [warnings] has
    severity medium; so no severity occurs in both lists. *)
Theorem severities_by_list h t :
  let r := analyzeTenderRisks h t in
  Forall (fun f => Finding.severity f = Severity.high \/ Finding.severity f = Severity.critical)
         (Assessment.risks r)
  /\ Forall (fun f => Finding.severity f = Severity.critical
                      <-> Finding.type f = FindingType.combined)
            (Assessment.risks r)
  /\ Forall (fun f => Finding.severity f = Severity.medium) (Assessment.warnings r)
  /\ (forall f w, In f (Assessment.risks r) -> In w (Assessment.warnings r) ->
                  Finding.severity f <> Finding.severity w).
Proof.
  cbv zeta. rewrite analyze_risks, analyze_warnings, runRules_risks, runRules_warnings.
  assert (R1 : Forall (fun f => Finding.severity f = Severity.high
                               \/ Finding.severity f = Severity.critical)
                 ((if seasonalCond h t then [seasonalFinding h t] else [])
                  ++ (if Number.geb (amountInBillions t) 2 then [financialFinding t] else [])
                  ++ (if timelineCond t then [timelineFinding t] else [])
                  ++ (if combinedCond h t then [combinedFinding t] else []))).
  { split_conds h t; cbn [app];
      repeat (first [apply Forall_nil | apply Forall_cons]);
      first [left; reflexivity | right; reflexivity]. }
  assert (W1 : Forall (fun f => Finding.severity f = Severity.medium)
                 ((if Number.geb (amountInBillions t) 2 then []
                   else if Number.geb (amountInBillions t) 1 then [financialWarning t] else [])
                  ++ (if deadlineCond h t then [deadlineWarning h t] else [])
                  ++ (if medicalCond t then [categoryWarning] else []))).
  { split_conds h t; cbn [app]; repeat constructor. }
  split; [exact R1 |]. split; [| split; [exact W1 |]].
  - split_conds h t; cbn [app];
      repeat (first [apply Forall_nil | apply Forall_cons]); split;
      cbn [Finding.severity Finding.type seasonalFinding financialFinding timelineFinding
             combinedFinding]; intros H; try discriminate H; reflexivity.
  - intros f w Hf Hw E.
    rewrite Forall_forall in R1, W1.
    specialize (R1 f Hf). specialize (W1 w Hw).
    rewrite E, W1 in R1. destruct R1 as [R1 | R1]; discriminate R1.
Qed.

Lemma severities_by_list_witness :
  Finding.severity (combinedFinding bridgeTender)
  <> Finding.severity (deadlineWarning utcHost bridgeTender).
Proof.
  apply (severities_by_list utcHost bridgeTender).
  - rewrite analyze_risks, runRules_risks.
    apply in_or_app. right. apply in_or_app. right. apply in_or_app. right.
    replace (combinedCond utcHost bridgeTender) with true by (vm_compute; reflexivity).
    left. reflexivity.
  - rewrite analyze_warnings, runRules_warnings.
    apply in_or_app. right. apply in_or_app. left.
    replace (deadlineCond utcHost bridgeTender) with true by (vm_compute; reflexivity).
    left. reflexivity.
Defined.

(** ** Strings *)

Lemma append_assoc (a b c : string) : ((a ++ b) ++ c = a ++ (b ++ c))%string.
Proof. induction a as [| x a IH]; cbn; [reflexivity | rewrite IH; reflexivity]. Qed.

Lemma append_inj_l (a b c : string) : (a ++ b = a ++ c)%string -> b = c.
Proof.
  induction a as [| x a IH]; cbn; intros H; [exact H |].
  inversion H as [H']. apply IH. exact H'.
Qed.

Lemma String_tail_inj (c : ascii) (a b : string) : String c a = String c b -> a = b.
Proof. intros H. inversion H. reflexivity. Qed.

(** ** The medical advisory *)

(** C10.  A medical tender of at least 0.5 and less than 1 billion whose
    deadline is not 1 to 9 days away gets score 0 and level low, yet its
    warnings hold exactly the medium category warning, its recommendations the
    currency entry, and its summary is the one that asks for attention, not
    the one for a tender without risks. *)
Theorem medical_advisory_at_score_zero h t :
  Tender.category t = "medical" ->
  500000000 <= Tender.amount t < 1000000000 ->
  ~ (0 < daysToDeadline h t < 10) ->
  let r := analyzeTenderRisks h t in
  Assessment.riskScore r = 0
  /\ Assessment.riskLevel r = RiskLevel.low
  /\ Assessment.risks r = []
  /\ Assessment.warnings r = [categoryWarning]
  /\ Finding.type categoryWarning = FindingType.category
  /\ Finding.severity categoryWarning = Severity.medium
  /\ Assessment.recommendations r = [currencyRecommendation]
  /\ Recommendation.type currencyRecommendation = RecommendationType.currency
  /\ Assessment.summary r
     = String.concat ""
         ["**Общая оценка риска: 0% (низкий)**"; nl; nl;
          "Тендер "; dquote; Tender.title t; dquote; " требует внимания."; nl; nl;
          "**Предупреждений: 1**"; nl;
          "- Импортное оборудование"; nl]
  /\ Assessment.summary r <> generateSummary t 0 RiskLevel.low [] [].
Proof.
  intros Hc Ha Hd r.
  assert (S : seasonalCond h t = false).
  { unfold seasonalCond. rewrite Hc. apply andb_false_r. }
  assert (A2 : Number.geb (amountInBillions t) 2 = false).
  { rewrite amountInBillions_geb_2. apply Z.leb_gt. lia. }
  assert (A1 : Number.geb (amountInBillions t) 1 = false).
  { rewrite amountInBillions_geb_1. apply Z.leb_gt. lia. }
  assert (D : deadlineCond h t = false).
  { apply not_true_is_false. intros E. apply deadlineCond_iff in E. contradiction. }
  assert (T : timelineCond t = false).
  { unfold timelineCond. rewrite Hc. reflexivity. }
  assert (C : combinedCond h t = false).
  { unfold combinedCond. fold (seasonalCond h t). rewrite S. reflexivity. }
  assert (M : medicalCond t = true).
  { unfold medicalCond. rewrite Hc, amountInBillions_geb_half.
    apply andb_true_iff. split; [reflexivity | apply Z.leb_le; lia]. }
  assert (Hs : Assessment.riskScore r = 0).
  { unfold r. rewrite analyze_riskScore, runRules_riskScore, S, A2, A1, D, T, C. reflexivity. }
  assert (Hr : Assessment.risks r = []).
  { unfold r. rewrite analyze_risks, runRules_risks, S, A2, T, C. reflexivity. }
  assert (Hw : Assessment.warnings r = [categoryWarning]).
  { unfold r. rewrite analyze_warnings, runRules_warnings, A2, A1, D, M. reflexivity. }
  assert (Hl : Assessment.riskLevel r = RiskLevel.low).
  { unfold r. rewrite analyze_riskLevel. fold r. rewrite Hs. reflexivity. }
  assert (Hsum : Assessment.summary r
                 = String.concat ""
                     ["**Общая оценка риска: 0% (низкий)**"; nl; nl;
                      "Тендер "; dquote; Tender.title t; dquote; " требует внимания."; nl; nl;
                      "**Предупреждений: 1**"; nl;
                      "- Импортное оборудование"; nl]).
  { unfold r. rewrite analyze_summary. fold r. rewrite Hs, Hl, Hr, Hw.
    unfold generateSummary, lengthOf, bulletList, categoryWarning.
    cbn [List.length Z.of_nat Z.eqb Z.gtb Z.compare andb fold_left Finding.title].
    generalize (Tender.title t) as title. intros title.
    cbv [String.concat levelText nl dquote Number.toString].
    cbn.
    rewrite !append_assoc. cbn. reflexivity. }
  repeat apply conj; try assumption; try reflexivity.
  - unfold r. rewrite analyze_recommendations, runRules_recommendations, S, A2, C, M, Hc.
    reflexivity.
  - rewrite Hsum.
    unfold generateSummary, lengthOf.
    cbn [List.length Z.of_nat Z.eqb andb].
    generalize (Tender.title t) as title. intros title.
    cbv [String.concat levelText nl dquote Number.toString]. cbn.
    intros E.
    repeat (apply String_tail_inj in E).
    apply append_inj_l in E. discriminate E.
Qed.

Lemma medical_advisory_at_score_zero_witness :
  Assessment.riskScore (analyzeTenderRisks earlierHost clinicTender) = 0
  /\ Assessment.warnings (analyzeTenderRisks earlierHost clinicTender) = [categoryWarning].
Proof.
  assert (H1 : Tender.category clinicTender = "medical") by reflexivity.
  assert (H2 : 500000000 <= Tender.amount clinicTender < 1000000000).
  { split; vm_compute; [discriminate | reflexivity]. }
  assert (H3 : ~ (0 < daysToDeadline earlierHost clinicTender < 10)).
  { intros [_ H]. vm_compute in H. discriminate H. }
  pose proof (medical_advisory_at_score_zero earlierHost clinicTender H1 H2 H3)
    as (Hs & _ & _ & Hw & _).
  exact (conj Hs Hw).
Defined.

(** ** The narrative fallback *)

Lemma aiResponse_fails net : externalCallFails net -> exists e, aiResponse net = inl e.
Proof.
  destruct net as [m | ok status json]; cbn [externalCallFails aiResponse].
  - intros _. eexists. reflexivity.
  - intros [Hok | H].
    + rewrite Hok. eexists. reflexivity.
    + destruct ok; cbn [negb]; [| eexists; reflexivity].
      destruct json as [m | data]; [eexists; reflexivity |].
      unfold read. destruct H as [H | H].
      * rewrite H. eexists. reflexivity.
      * destruct (nullish data); [eexists; reflexivity |].
        rewrite H. eexists. reflexivity.
Qed.

Lemma aiResponse_succeeds net :
  ~ externalCallFails net -> exists v, aiResponse net = inr v /\ truthy v = true.
Proof.
  destruct net as [m | ok status json]; cbn [externalCallFails aiResponse].
  - intros H. exfalso. apply H. exact I.
  - intros H. destruct ok; [| exfalso; apply H; left; reflexivity]. cbn [negb].
    destruct json as [m | data]; [exfalso; apply H; right; exact I |].
    unfold read.
    destruct (nullish data) eqn:Nd; [exfalso; apply H; right; left; reflexivity |].
    destruct (nullish (member data (Name "choices"))) eqn:Nc;
      [exfalso; apply H; right; right; reflexivity |].
    destruct (truthy (readOpt (readOpt (member (member data (Name "choices")) (Index 0))
                                       (Name "message")) (Name "content"))) eqn:Tr.
    + eexists. split; [reflexivity | exact Tr].
    + eexists. split; reflexivity.
Qed.

(** For a tender whose amount is a number the prompts are built without a
    failure, and the function is [aiAnalyzeTender] on the engine's view of
    the tender. *)
Lemma aiAnalyzeTender_of_number h net t a :
  TenderData.amount t = Amount.number a ->
  Raw.analyzeTenderRisks h t = analyzeTenderRisks h (TenderData.typed t a)
  /\ Raw.aiAnalyzeTender h net t = inr (aiAnalyzeTender h net (TenderData.typed t a)).
Proof.
  intros Ha.
  assert (E : Raw.analyzeTenderRisks h t = analyzeTenderRisks h (TenderData.typed t a)).
  { unfold Raw.analyzeTenderRisks. rewrite Ha. reflexivity. }
  split; [exact E |].
  unfold Raw.aiAnalyzeTender, aiAnalyzeTender. rewrite E, Ha. cbn [Raw.formatAmount].
  destruct (noKey (Host.OPENROUTER_API_KEY h)); [reflexivity |].
  destruct (aiResponse net); reflexivity.
Qed.

(** A missing amount is assessed like the amount 0. *)
Lemma analyzeTenderRisks_missing_amount h t :
  (forall a, TenderData.amount t <> Amount.number a) ->
  Raw.analyzeTenderRisks h t = analyzeTenderRisks h (TenderData.typed t 0).
Proof.
  intros Hm.
  assert (G2 : Number.geb (amountInBillions (TenderData.typed t 0)) 2 = false)
    by (vm_compute; reflexivity).
  assert (G1 : Number.geb (amountInBillions (TenderData.typed t 0)) 1 = false)
    by (vm_compute; reflexivity).
  assert (Gh : Number.geb (amountInBillions (TenderData.typed t 0)) (Number.lit 0.5) = false)
    by (vm_compute; reflexivity).
  assert (R : runRules h (TenderData.typed t 0)
              = itRule (TenderData.typed t 0)
                  (deadlineRule h (TenderData.typed t 0)
                     (seasonalRule h (TenderData.typed t 0) State.init))).
  { unfold runRules, financialRule, timelineRule, combinedRule, medicalRule.
    rewrite G2, G1, Gh, !andb_false_r. cbn [andb]. reflexivity. }
  unfold Raw.analyzeTenderRisks, analyzeTenderRisks. rewrite R.
  destruct (TenderData.amount t) as [a | |]; [exfalso; exact (Hm a eq_refl) | |]; reflexivity.
Qed.

(** C8, as amended.  When no API key is configured (unset or empty), or the
    external call is made and fails ([fetch] rejects, the response is not
    ok, its body does not parse, or the parsed body is [null] or has no
    [choices] to index), [aiAnalyzeTender] returns, with [success = true],
    the engine's assessment as [details], the source local and the engine's
    summary as text.  A body that parses and has [choices] is not a failure,
    whatever else it lacks: the source is then ai and the text is the content
    of the first choice or, when that is missing or empty, a fixed
    placeholder.  The call is made only once the prompts are built: with a
    key configured and a tender whose amount is [undefined] or [null],
    [formatAmount] throws before [try] and the [TypeError] reaches the
    caller. *)
Theorem ai_fallback_to_local h net t :
  let out := Raw.aiAnalyzeTender h net t in
  let engine := Raw.analyzeTenderRisks h t in
  let keyed := noKey (Host.OPENROUTER_API_KEY h) = false in
  let numeric := exists a, TenderData.amount t = Amount.number a in
  (noKey (Host.OPENROUTER_API_KEY h) = true \/ (numeric /\ externalCallFails net) ->
   exists r,
     out = inr r
     /\ AiResult.success r = true
     /\ AiResult.details r = engine
     /\ AiResult.source r = Source.local
     /\ AiResult.analysis r = Str (Assessment.summary engine))
  /\ (keyed -> numeric -> ~ externalCallFails net ->
      exists r,
        out = inr r
        /\ AiResult.success r = true
        /\ AiResult.details r = engine
        /\ AiResult.source r = Source.ai
        /\ truthy (AiResult.analysis r) = true
        /\ aiResponse net = inr (AiResult.analysis r))
  /\ (keyed -> ~ numeric -> out = inl TypeError)
  /\ (forall a, TenderData.amount t = Amount.number a ->
      out = inr (aiAnalyzeTender h net (TenderData.typed t a))).
Proof.
  cbv zeta.
  split; [| split; [| split]].
  - intros [K | [[a Ha] F]].
    + unfold Raw.aiAnalyzeTender. rewrite K.
      eexists. split; [reflexivity |]. repeat split.
    + unfold Raw.aiAnalyzeTender. rewrite Ha. cbn [Raw.formatAmount].
      destruct (noKey (Host.OPENROUTER_API_KEY h)).
      * eexists. split; [reflexivity |]. repeat split.
      * destruct (aiResponse_fails net F) as [e He]. rewrite He.
        eexists. split; [reflexivity |]. repeat split.
  - intros K [a Ha] F.
    unfold Raw.aiAnalyzeTender. rewrite K, Ha. cbn [Raw.formatAmount].
    destruct (aiResponse_succeeds net F) as [v [Hv Tv]]. rewrite Hv.
    eexists. split; [reflexivity |].
    cbn [AiResult.success AiResult.details AiResult.source AiResult.analysis].
    split; [reflexivity |]. split; [reflexivity |]. split; [reflexivity |].
    split; [exact Tv | reflexivity].
  - intros K N. unfold Raw.aiAnalyzeTender. rewrite K.
    destruct (TenderData.amount t) as [a | |];
      [exfalso; apply N; exists a; reflexivity | |]; reflexivity.
  - intros a Ha. exact (proj2 (aiAnalyzeTender_of_number h net t a Ha)).
Qed.

Lemma ai_fallback_to_local_witness :
  exists r,
    Raw.aiAnalyzeTender keyedHost (Fetch.Resolved false 503 (Fetch.Unparsed "")) clinicData
    = inr r
    /\ AiResult.success r = true
    /\ AiResult.details r = Raw.analyzeTenderRisks keyedHost clinicData
    /\ AiResult.source r = Source.local
    /\ AiResult.analysis r
       = Str (Assessment.summary (Raw.analyzeTenderRisks keyedHost clinicData)).
Proof.
  apply (proj1 (ai_fallback_to_local keyedHost (Fetch.Resolved false 503 (Fetch.Unparsed ""))
                  clinicData)).
  right. split.
  - exists 700000000. reflexivity.
  - left. reflexivity.
Defined.

(** The same entry without its amount: with a key the prompt fails and the
    error reaches the caller; without a key the engine's summary is
    returned. *)
Lemma prompt_failure_reaches_the_caller :
  Raw.aiAnalyzeTender keyedHost emptyChoices clinicDataNoAmount = inl TypeError
  /\ exists r,
       Raw.aiAnalyzeTender utcHost emptyChoices clinicDataNoAmount = inr r
       /\ AiResult.source r = Source.local.
Proof.
  split; [reflexivity |].
  eexists. split; [reflexivity | reflexivity].
Qed.

(** A response that is ok and parses, with an empty [choices]: the result
    says ai and carries the placeholder, not the engine's summary. *)
Lemma malformed_response_reported_as_ai :
  Host.OPENROUTER_API_KEY keyedHost = Some "sk-or-v1"
  /\ AiResult.source (aiAnalyzeTender keyedHost emptyChoices clinicTender) = Source.ai
  /\ AiResult.analysis (aiAnalyzeTender keyedHost emptyChoices clinicTender)
     = Str "Не удалось получить анализ"
  /\ AiResult.analysis (aiAnalyzeTender keyedHost emptyChoices clinicTender)
     <> Str (Assessment.summary (analyzeTenderRisks keyedHost clinicTender)).
Proof.
  apply conj; [reflexivity | apply conj; [reflexivity | apply conj; [reflexivity |]]].
  intros E. vm_compute in E. discriminate E.
Qed.

(** ** The pollutant classifier *)

(** For the five pollutants the status follows the two inclusive thresholds,
    and a kind that is neither one of them nor a property name of
    [Object.prototype] is unknown. *)
Lemma getPollutantStatus_thresholds (kind : string) (good moderate : Q) (value : JSNumber.t) :
  In (kind, Threshold.mk good moderate) thresholds ->
  getPollutantStatus kind value =
    if JSNumber.leb value (JSNumber.Finite good) then Status.good
    else if JSNumber.leb value (JSNumber.Finite moderate) then Status.moderate
    else Status.poor.
Proof.
  intros H. cbn [thresholds In] in H.
  repeat destruct H as [H | H]; try contradiction; inversion H; subst; reflexivity.
Qed.

Lemma getPollutantStatus_unknown (kind : string) (value : JSNumber.t) :
  ownEntry thresholds kind = None ->
  includes objectPrototype kind = false ->
  getPollutantStatus kind value = Status.unknown.
Proof.
  intros H1 H2. unfold getPollutantStatus, getEntry. rewrite H1, H2. reflexivity.
Qed.

Lemma getPollutantStatus_pm25_boundaries :
  getPollutantStatus "pm25" (JSNumber.Finite 15) = Status.good
  /\ getPollutantStatus "pm25" (JSNumber.Finite (Number.lit 15.01)) = Status.moderate
  /\ getPollutantStatus "pm25" (JSNumber.Finite 35) = Status.moderate
  /\ getPollutantStatus "pm25" (JSNumber.Finite (Number.lit 35.01)) = Status.poor.
Proof. repeat apply conj; reflexivity. Qed.

(** C7 at the kind [constructor]: [thresholds[type]] is the inherited
    [Object], which is truthy and has no thresholds, and the status is poor
    instead of unknown. *)
Theorem getPollutantStatus_inherited_kind :
  ownEntry thresholds "constructor" = None
  /\ getPollutantStatus "constructor" (JSNumber.Finite 1) = Status.poor
  /\ (forall kind value,
        ownEntry thresholds kind = None ->
        includes objectPrototype kind = true ->
        getPollutantStatus kind value = Status.poor).
Proof.
  repeat apply conj; try reflexivity.
  intros kind value H1 H2. unfold getPollutantStatus, getEntry. rewrite H1, H2.
  destruct value; reflexivity.
Qed.

(** * Further properties of the engine *)

Lemma includes_winterRiskCategories c :
  includes winterRiskCategories c = (c =? "construction")%string.
Proof. unfold includes, winterRiskCategories. cbn [existsb]. apply orb_false_r. Qed.

Lemma combinedCond_eq h t :
  combinedCond h t = seasonalCond h t && Number.geb (amountInBillions t) 1.
Proof. reflexivity. Qed.

Lemma geb_2_geb_1 t :
  Number.geb (amountInBillions t) 2 = true -> Number.geb (amountInBillions t) 1 = true.
Proof.
  rewrite amountInBillions_geb_2, amountInBillions_geb_1, !Z.leb_le. lia.
Qed.

Lemma seasonalCond_construction h t :
  seasonalCond h t = true -> Tender.category t = "construction".
Proof.
  unfold seasonalCond. rewrite includes_winterRiskCategories, andb_true_iff.
  intros [_ H]. apply String.eqb_eq. exact H.
Qed.

Lemma timelineCond_construction t :
  timelineCond t = true -> Tender.category t = "construction".
Proof.
  unfold timelineCond. rewrite !andb_true_iff.
  intros [[H _] _]. apply String.eqb_eq. exact H.
Qed.

Lemma medicalCond_medical t : medicalCond t = true -> Tender.category t = "medical".
Proof.
  unfold medicalCond. rewrite andb_true_iff. intros [H _]. apply String.eqb_eq. exact H.
Qed.

(** The conditions as booleans, with what ties them together. *)
Ltac tied_conds h t :=
  pose proof (combinedCond_eq h t) as Hcomb;
  pose proof (geb_2_geb_1 t) as H21;
  destruct (seasonalCond h t);
  destruct (Number.geb (amountInBillions t) 2);
  destruct (Number.geb (amountInBillions t) 1);
  try (specialize (H21 eq_refl); discriminate H21);
  clear H21;
  cbn [andb] in Hcomb; rewrite Hcomb; clear Hcomb;
  destruct (deadlineCond h t);
  destruct (timelineCond t);
  destruct (medicalCond t).

(** X1.  A tender outside construction gets no seasonal, timeline or combined
    finding, whatever its execution dates: its risks hold at most the
    financial finding, its score is at most 40 and its level is never high. *)
Theorem non_construction_has_no_seasonal_rules h t :
  Tender.category t <> "construction" ->
  let r := analyzeTenderRisks h t in
  Assessment.risks r
  = (if 2000000000 <=? Tender.amount t then [financialFinding t] else [])
  /\ ~ In timingRecommendation (Assessment.recommendations r)
  /\ ~ In guaranteeRecommendation (Assessment.recommendations r)
  /\ Assessment.riskScore r <= 40
  /\ Assessment.riskLevel r <> RiskLevel.high.
Proof.
  intros Hc. cbv zeta.
  assert (S : seasonalCond h t = false).
  { apply not_true_is_false. intros E. apply Hc. exact (seasonalCond_construction h t E). }
  assert (T : timelineCond t = false).
  { apply not_true_is_false. intros E. apply Hc. exact (timelineCond_construction t E). }
  assert (C : combinedCond h t = false) by (rewrite combinedCond_eq, S; reflexivity).
  rewrite analyze_riskLevel, analyze_riskScore, analyze_risks, analyze_recommendations.
  rewrite runRules_riskScore, runRules_risks, runRules_recommendations, S, T, C.
  rewrite amountInBillions_geb_2.
  split; [destruct (2000000000 <=? Tender.amount t); reflexivity |].
  destruct (2000000000 <=? Tender.amount t);
    destruct (Number.geb (amountInBillions t) 1);
    destruct (deadlineCond h t); destruct (medicalCond t);
    destruct (Tender.category t =? "it")%string;
    cbn [app In]; repeat split; try (cbn; lia); try discriminate;
    intros H; repeat destruct H as [H | H]; try discriminate H; try contradiction.
Qed.

Lemma non_construction_has_no_seasonal_rules_witness :
  Assessment.riskScore (analyzeTenderRisks utcHost clinicTender) <= 40.
Proof.
  apply (non_construction_has_no_seasonal_rules utcHost clinicTender).
  intros E. discriminate E.
Defined.

(** X2.  An IT tender below 1 billion whose deadline is not 1 to 9 days away
    has no risk and no warning, exactly the support recommendation, score 0
    and level low, and its summary is the one for a tender without risks. *)
Theorem it_tender_without_risks h t :
  Tender.category t = "it" ->
  Tender.amount t < 1000000000 ->
  ~ (0 < daysToDeadline h t < 10) ->
  let r := analyzeTenderRisks h t in
  Assessment.risks r = []
  /\ Assessment.warnings r = []
  /\ Assessment.recommendations r = [supportRecommendation]
  /\ Assessment.riskScore r = 0
  /\ Assessment.riskLevel r = RiskLevel.low
  /\ Assessment.summary r
     = String.concat ""
         ["**Общая оценка риска: 0% (низкий)**"; nl; nl;
          "Тендер "; dquote; Tender.title t; dquote;
          " не имеет существенных рисков. Рекомендуется стандартная процедура проверки поставщика."].
Proof.
  intros Hc Ha Hd. cbv zeta.
  assert (S : seasonalCond h t = false).
  { unfold seasonalCond. rewrite Hc. apply andb_false_r. }
  assert (A2 : Number.geb (amountInBillions t) 2 = false).
  { rewrite amountInBillions_geb_2. apply Z.leb_gt. lia. }
  assert (A1 : Number.geb (amountInBillions t) 1 = false).
  { rewrite amountInBillions_geb_1. apply Z.leb_gt. lia. }
  assert (D : deadlineCond h t = false).
  { apply not_true_is_false. intros E. apply deadlineCond_iff in E. contradiction. }
  assert (T : timelineCond t = false) by (unfold timelineCond; rewrite Hc; reflexivity).
  assert (C : combinedCond h t = false) by (rewrite combinedCond_eq, S; reflexivity).
  assert (M : medicalCond t = false) by (unfold medicalCond; rewrite Hc; reflexivity).
  assert (Hr : Assessment.risks (analyzeTenderRisks h t) = []).
  { rewrite analyze_risks, runRules_risks, S, A2, T, C. reflexivity. }
  assert (Hw : Assessment.warnings (analyzeTenderRisks h t) = []).
  { rewrite analyze_warnings, runRules_warnings, A2, A1, D, M. reflexivity. }
  assert (Hs : Assessment.riskScore (analyzeTenderRisks h t) = 0).
  { rewrite analyze_riskScore, runRules_riskScore, S, A2, A1, D, T, C. reflexivity. }
  assert (Hl : Assessment.riskLevel (analyzeTenderRisks h t) = RiskLevel.low).
  { rewrite analyze_riskLevel, Hs. reflexivity. }
  repeat apply conj; try assumption.
  - rewrite analyze_recommendations, runRules_recommendations, S, A2, C, M, Hc. reflexivity.
  - rewrite analyze_summary, Hs, Hl, Hr, Hw.
    unfold generateSummary, lengthOf.
    cbn [List.length Z.of_nat Z.eqb andb].
    generalize (Tender.title t) as title. intros title.
    cbv [String.concat levelText nl dquote Number.toString]. cbn. reflexivity.
Qed.

(** Software for 100 million, deadline sixty days after 1 January 2025. *)
Lemma it_tender_without_risks_witness :
  let t := {| Tender.title := "Портал";
              Tender.category := "it";
              Tender.amount := 100000000;
              Tender.deadline := Date.UTC 2025 2 2;
              Tender.executionStart := Date.UTC 2025 5 1;
              Tender.executionEnd := Date.UTC 2025 8 1 |} in
  Assessment.recommendations (analyzeTenderRisks utcHost t) = [supportRecommendation]
  /\ Assessment.riskScore (analyzeTenderRisks utcHost t) = 0.
Proof.
  intros t.
  assert (H1 : Tender.category t = "it") by reflexivity.
  assert (H2 : Tender.amount t < 1000000000) by reflexivity.
  assert (H3 : ~ (0 < daysToDeadline utcHost t < 10)).
  { intros [_ H]. vm_compute in H. discriminate H. }
  pose proof (it_tender_without_risks utcHost t H1 H2 H3) as (_ & _ & Hr & Hs & _).
  exact (conj Hr Hs).
Defined.

(** X3.  Every recommendation but the support one comes with its finding: the
    timing recommendation with the seasonal finding, the control one with the
    financial finding, the guarantee one with the combined finding and the
    currency one with the category warning; the support recommendation is
    there exactly for the category it. *)
Theorem recommendations_follow_findings h t :
  let r := analyzeTenderRisks h t in
  (In timingRecommendation (Assessment.recommendations r)
   <-> In (seasonalFinding h t) (Assessment.risks r))
  /\ (In controlRecommendation (Assessment.recommendations r)
      <-> In (financialFinding t) (Assessment.risks r))
  /\ (In guaranteeRecommendation (Assessment.recommendations r)
      <-> In (combinedFinding t) (Assessment.risks r))
  /\ (In currencyRecommendation (Assessment.recommendations r)
      <-> In categoryWarning (Assessment.warnings r))
  /\ (In supportRecommendation (Assessment.recommendations r)
      <-> Tender.category t = "it").
Proof.
  cbv zeta.
  rewrite analyze_risks, analyze_warnings, analyze_recommendations.
  rewrite runRules_risks, runRules_warnings, runRules_recommendations.
  rewrite <- String.eqb_eq.
  split_conds h t; destruct (Tender.category t =? "it")%string;
    cbn [app In]; repeat split; intros H; try reflexivity; try tauto;
    repeat destruct H as [H | H]; try discriminate H; try contradiction.
Qed.

(** X4.  The score is explained by the findings: it is the sum, capped at
    100, of 35 for the seasonal, 25 for the financial, 20 for the timeline and
    20 for the combined finding in [risks] and of 15 for the financial and 15
    for the deadline warning in [warnings]. *)
Theorem riskScore_is_sum_of_findings h t :
  let r := analyzeTenderRisks h t in
  Assessment.riskScore r
  = Z.min (total riskWeight (Assessment.risks r)
           + total warningWeight (Assessment.warnings r)) 100.
Proof.
  cbv zeta.
  rewrite analyze_riskScore, analyze_risks, analyze_warnings.
  rewrite runRules_riskScore, runRules_risks, runRules_warnings.
  split_conds h t; reflexivity.
Qed.

(** X5.  A high level always rests on at least two findings in [risks]; with
    no risk at all the score is at most 30. *)
Theorem high_level_needs_two_risks h t :
  let r := analyzeTenderRisks h t in
  (Assessment.riskLevel r = RiskLevel.high -> 2 <= lengthOf (Assessment.risks r))
  /\ (Assessment.risks r = [] -> Assessment.riskScore r <= 30).
Proof.
  cbv zeta.
  rewrite analyze_riskLevel, analyze_riskScore, analyze_risks.
  rewrite runRules_riskScore, runRules_risks.
  tied_conds h t; cbn; split; intros H; try discriminate H; lia.
Qed.

(** X6.  The combined finding never stands alone: with it come the seasonal
    finding and either the financial finding or the financial warning. *)
Theorem combined_comes_with_seasonal_and_financial h t :
  let r := analyzeTenderRisks h t in
  In (combinedFinding t) (Assessment.risks r) ->
  In (seasonalFinding h t) (Assessment.risks r)
  /\ (In (financialFinding t) (Assessment.risks r)
      \/ In (financialWarning t) (Assessment.warnings r)).
Proof.
  cbv zeta.
  rewrite analyze_risks, analyze_warnings, runRules_risks, runRules_warnings.
  tied_conds h t; cbn [app In]; intros H;
    repeat destruct H as [H | H]; try discriminate H; try contradiction; tauto.
Qed.

Lemma combined_comes_with_seasonal_and_financial_witness :
  In (seasonalFinding utcHost bridgeTender)
     (Assessment.risks (analyzeTenderRisks utcHost bridgeTender)).
Proof.
  apply (combined_comes_with_seasonal_and_financial utcHost bridgeTender).
  rewrite analyze_risks, runRules_risks.
  apply in_or_app. right. apply in_or_app. right. apply in_or_app. right.
  replace (combinedCond utcHost bridgeTender) with true by (vm_compute; reflexivity).
  left. reflexivity.
Defined.

(** X7.  Findings are listed in the order of the rules, each rule at most
    once: the rule numbers along [risks] and along [warnings] increase
    strictly, so [risks] has at most four entries and [warnings] at most
    three. *)
Theorem findings_in_rule_order h t :
  let r := analyzeTenderRisks h t in
  StronglySorted Z.lt
    (map (fun f => ruleOrder (Finding.type f)) (Assessment.risks r))
  /\ StronglySorted Z.lt
       (map (fun f => ruleOrder (Finding.type f)) (Assessment.warnings r))
  /\ lengthOf (Assessment.risks r) <= 4
  /\ lengthOf (Assessment.warnings r) <= 3.
Proof.
  cbv zeta.
  rewrite analyze_risks, analyze_warnings, runRules_risks, runRules_warnings.
  tied_conds h t; cbn;
    repeat apply conj; try lia;
    repeat (first [apply SSorted_nil | apply SSorted_cons
                   | apply Forall_nil | apply Forall_cons]); reflexivity.
Qed.

(** ** The score as a function of the amount *)

Lemma mul_mono a b c : (0 <= c)%Q -> (a <= b)%Q -> (Number.mul a c <= Number.mul b c)%Q.
Proof.
  intros Hc H. unfold Number.mul. apply rnd_mono. apply Qmult_le_compat_r; assumption.
Qed.

Lemma amountInBillions_mono t a :
  Tender.amount t <= a -> (amountInBillions t <= amountInBillions (withAmount t a))%Q.
Proof.
  intros H. unfold amountInBillions. cbn [withAmount Tender.amount].
  apply div_mono; [reflexivity | apply ofZ_mono; exact H].
Qed.

Lemma timelineCond_mono t a :
  Tender.amount t <= a -> timelineCond t = true -> timelineCond (withAmount t a) = true.
Proof.
  intros H. unfold timelineCond. rewrite !andb_true_iff.
  rewrite !amountInBillions_geb_half. cbn [withAmount Tender.amount Tender.category].
  intros [[Hc Hh] Hl]. split; [split |].
  - exact Hc.
  - apply Z.leb_le. apply Z.leb_le in Hh. lia.
  - unfold Number.ltb in *. apply negb_true_iff. apply negb_true_iff in Hl.
    apply not_true_is_false. intros E. apply Qle_bool_iff in E.
    assert (E' : Qle_bool (Number.mul (expectedMonths t) (Number.lit 0.7))
                          (monthsForExecution t) = true).
    { apply Qle_bool_iff.
      apply Qle_trans with (2 := E).
      apply mul_mono; [vm_compute; discriminate |].
      unfold expectedMonths. apply mul_mono; [discriminate |].
      apply amountInBillions_mono. exact H. }
    congruence.
Qed.

(** X8.  Raising the amount of a tender, all else equal, never lowers its
    score: every rule that fires for the smaller amount fires for the larger
    one, rounding included. *)
Theorem riskScore_monotone_in_amount h t a :
  Tender.amount t <= a ->
  Assessment.riskScore (analyzeTenderRisks h t)
  <= Assessment.riskScore (analyzeTenderRisks h (withAmount t a)).
Proof.
  intros H.
  rewrite !analyze_riskScore, !runRules_riskScore.
  assert (S : seasonalCond h (withAmount t a) = seasonalCond h t) by reflexivity.
  assert (D : deadlineCond h (withAmount t a) = deadlineCond h t) by reflexivity.
  assert (A2 : Number.geb (amountInBillions t) 2 = true ->
               Number.geb (amountInBillions (withAmount t a)) 2 = true).
  { rewrite !amountInBillions_geb_2, !Z.leb_le. cbn [withAmount Tender.amount]. lia. }
  assert (A1 : Number.geb (amountInBillions t) 1 = true ->
               Number.geb (amountInBillions (withAmount t a)) 1 = true).
  { rewrite !amountInBillions_geb_1, !Z.leb_le. cbn [withAmount Tender.amount]. lia. }
  pose proof (timelineCond_mono t a H) as T.
  pose proof (geb_2_geb_1 (withAmount t a)) as H21.
  rewrite !combinedCond_eq, S, D.
  destruct (seasonalCond h t); destruct (deadlineCond h t);
    destruct (Number.geb (amountInBillions t) 2);
    destruct (Number.geb (amountInBillions t) 1);
    destruct (timelineCond t);
    try (rewrite (A2 eq_refl)); try (rewrite (A1 eq_refl)); try (rewrite (T eq_refl));
    destruct (Number.geb (amountInBillions (withAmount t a)) 2);
    destruct (Number.geb (amountInBillions (withAmount t a)) 1);
    try (specialize (H21 eq_refl); discriminate H21);
    destruct (timelineCond (withAmount t a));
    cbn; lia.
Qed.

Lemma riskScore_monotone_in_amount_witness :
  Assessment.riskScore (analyzeTenderRisks utcHost roadTender)
  <= Assessment.riskScore (analyzeTenderRisks utcHost (withAmount roadTender 2500000000)).
Proof.
  apply (riskScore_monotone_in_amount utcHost roadTender 2500000000).
  vm_compute. discriminate.
Defined.

(** ** Months and amounts in the descriptions *)

(** X9.  [formatMonth] of the month read from a date is one of the twelve
    names exactly when the date is valid.  For every time value and time
    zone [getMonth] is between 0 and 11 and indexes the array; for an Invalid
    Date, which a date string that does not parse gives, [getMonth] is [NaN]
    and [formatMonth] returns [undefined]. *)
Theorem formatMonth_of_getMonth h d :
  (forall time, d = DateObject.Valid time ->
     0 <= getMonth h time <= 11
     /\ In (formatMonth (getMonth h time)) months
     /\ Raw.formatMonth (Raw.getMonth h d) = Some (formatMonth (getMonth h time)))
  /\ (d = DateObject.Invalid ->
      Raw.getMonth h d = JSNumber.NaN /\ Raw.formatMonth (Raw.getMonth h d) = None)
  /\ (Raw.formatMonth (Raw.getMonth h d) = None <-> d = DateObject.Invalid).
Proof.
  assert (V : forall time,
             In (formatMonth (getMonth h time)) months
             /\ Raw.formatMonth (Raw.getMonth h (DateObject.Valid time))
                = Some (formatMonth (getMonth h time))).
  { intros time. cbn [Raw.getMonth].
    pose proof (month_cases _ (getMonth_range h time)) as C.
    repeat destruct C as [C | C]; rewrite C; (split; [cbn; tauto | vm_compute; reflexivity]). }
  split; [| split].
  - intros time E. subst d. split; [apply getMonth_range | apply V].
  - intros E. subst d. split; reflexivity.
  - destruct d as [time |].
    + rewrite (proj2 (V time)). split; intros E; discriminate E.
    + split; reflexivity.
Qed.

Lemma formatAmount_large a :
  500000000 <= a ->
  forallb (fun p => negb (isLocaleString p)) (formatAmount (Number.ofZ a)) = true.
Proof.
  intros H. unfold formatAmount.
  destruct (Number.geb (Number.ofZ a) 1000000000); [reflexivity |].
  assert (G : Number.geb (Number.ofZ a) 1000000 = true).
  { unfold Number.geb. apply Qle_bool_iff.
    apply Qle_trans with (Number.ofZ 500000000).
    - vm_compute. discriminate.
    - apply ofZ_mono. exact H. }
  rewrite G. reflexivity.
Qed.

(** X10.  No description of a finding renders an amount with
    [toLocaleString]: [formatAmount] is reached only for amounts of at least
    500 million, which it shows in billions or in millions with [toFixed]. *)
Theorem descriptions_never_use_toLocaleString h t f :
  let r := analyzeTenderRisks h t in
  In f (Assessment.risks r ++ Assessment.warnings r) ->
  forallb (fun p => negb (isLocaleString p)) (Finding.description f) = true.
Proof.
  cbv zeta.
  rewrite analyze_risks, analyze_warnings, runRules_risks, runRules_warnings.
  assert (F : forall pre post a, 500000000 <= a ->
              forallb (fun p => negb (isLocaleString p))
                      (pre :: formatAmount (Number.ofZ a) ++ [post])
              = negb (isLocaleString pre) && negb (isLocaleString post)).
  { intros pre post a Ha. cbn [forallb]. rewrite forallb_app, (formatAmount_large a Ha).
    cbn [forallb andb]. rewrite andb_true_r. reflexivity. }
  assert (H2 : Number.geb (amountInBillions t) 2 = true -> 500000000 <= Tender.amount t).
  { rewrite amountInBillions_geb_2, Z.leb_le. lia. }
  assert (H1 : Number.geb (amountInBillions t) 1 = true -> 500000000 <= Tender.amount t).
  { rewrite amountInBillions_geb_1, Z.leb_le. lia. }
  assert (HT : timelineCond t = true -> 500000000 <= Tender.amount t).
  { unfold timelineCond. rewrite !andb_true_iff, amountInBillions_geb_half, Z.leb_le. tauto. }
  assert (HC : combinedCond h t = true -> 500000000 <= Tender.amount t).
  { rewrite combinedCond_eq, andb_true_iff. intros [_ E]. exact (H1 E). }
  destruct (seasonalCond h t);
    destruct (Number.geb (amountInBillions t) 2);
    destruct (Number.geb (amountInBillions t) 1);
    destruct (deadlineCond h t);
    destruct (timelineCond t);
    destruct (combinedCond h t);
    destruct (medicalCond t);
    cbn [app In]; intros H;
    repeat destruct H as [H | H]; try contradiction; subst f;
    first [ reflexivity
          | unfold financialFinding, financialWarning, timelineFinding, combinedFinding;
            cbn [Finding.description app];
            first [ apply F | apply (F (Lit _) (Lit _)) ]; auto ].
Qed.

Lemma descriptions_never_use_toLocaleString_witness :
  forallb (fun p => negb (isLocaleString p)) (Finding.description (combinedFinding bridgeTender))
  = true.
Proof.
  apply (descriptions_never_use_toLocaleString utcHost bridgeTender).
  rewrite analyze_risks, runRules_risks.
  apply in_or_app. left.
  apply in_or_app. right. apply in_or_app. right. apply in_or_app. right.
  replace (combinedCond utcHost bridgeTender) with true by (vm_compute; reflexivity).
  left. reflexivity.
Defined.

(** ** The summary *)

Lemma concat_nil_cons (x : string) (xs : list string) :
  String.concat "" (x :: xs) = (x ++ String.concat "" xs)%string.
Proof.
  destruct xs as [| y ys]; cbn [String.concat].
  - induction x as [| c x IH]; cbn; [reflexivity | rewrite <- IH; reflexivity].
  - reflexivity.
Qed.

Lemma append_nil_r (s : string) : (s ++ "")%string = s.
Proof. induction s as [| c s IH]; cbn; [reflexivity | rewrite IH; reflexivity]. Qed.

Lemma bulletList_eq findings summary :
  bulletList findings summary = (summary ++ bulletLines findings)%string.
Proof.
  unfold bulletList. revert summary.
  induction findings as [| f fs IH]; intros summary; cbn [fold_left bulletLines fold_right].
  - symmetry. apply append_nil_r.
  - rewrite IH. rewrite !concat_nil_cons. cbn [String.concat].
    rewrite !append_assoc. cbn [append]. reflexivity.
Qed.

(** The summary is the header with the score and the level, then either
    the sentence for a tender without risks (no risk and no warning) or the
    sentence asking for attention followed by the risks section, an empty
    line, and the warnings section; a section with no finding is left out
    (the empty line goes with the risks section). *)
Lemma generateSummary_sections t riskScore riskLevel risks warnings :
  generateSummary t riskScore riskLevel risks warnings
  = (String.concat ""
       ["**Общая оценка риска: "; Number.toString riskScore; "% ("; levelText riskLevel;
        ")**"; nl; nl]
     ++ match risks, warnings with
        | [], [] =>
            String.concat ""
              ["Тендер "; dquote; Tender.title t; dquote;
               " не имеет существенных рисков. Рекомендуется стандартная процедура проверки поставщика."]
        | _, _ =>
            String.concat ""
              ["Тендер "; dquote; Tender.title t; dquote; " требует внимания."; nl; nl]
            ++ summarySection "**Выявлено критических рисков: " risks
            ++ (match risks with [] => "" | _ => nl end)
            ++ summarySection "**Предупреждений: " warnings
        end)%string.
Proof.
  unfold generateSummary.
  set (header := String.concat ""
                   ["**Общая оценка риска: "; Number.toString riskScore; "% (";
                    levelText riskLevel; ")**"; nl; nl]).
  assert (L : forall (A : Type) (x : A) (l : list A),
             (lengthOf (x :: l) =? 0) = false /\ (lengthOf (x :: l) >? 0) = true).
  { intros A x l. unfold lengthOf. cbn [List.length].
    rewrite Nat2Z.inj_succ. split; [apply Z.eqb_neq; lia | apply Z.gtb_lt; lia]. }
  destruct risks as [| r rs]; destruct warnings as [| w ws].
  - cbn [lengthOf List.length Z.of_nat Z.eqb andb].
    rewrite concat_nil_cons. reflexivity.
  - destruct (L _ w ws) as [L1 L2]. rewrite L1, L2.
    cbn [lengthOf List.length Z.of_nat Z.eqb Z.gtb Z.compare andb summarySection].
    rewrite bulletList_eq, !concat_nil_cons. cbn [String.concat append].
    repeat first [rewrite !append_assoc | progress cbn [append] | rewrite append_nil_r].
    reflexivity.
  - destruct (L _ r rs) as [L1 L2]. rewrite L1, L2.
    cbn [lengthOf List.length Z.of_nat Z.eqb Z.gtb Z.compare andb summarySection].
    rewrite bulletList_eq, !concat_nil_cons. cbn [String.concat append].
    repeat first [rewrite !append_assoc | progress cbn [append] | rewrite append_nil_r].
    reflexivity.
  - destruct (L _ r rs) as [L1 L2]. destruct (L _ w ws) as [L3 L4].
    rewrite L1, L2, L4.
    cbn [andb summarySection].
    rewrite !bulletList_eq, !concat_nil_cons. cbn [String.concat append].
    repeat first [rewrite !append_assoc | progress cbn [append] | rewrite append_nil_r].
    reflexivity.
Qed.

Lemma occursIn_append_l sub a b : occursIn sub a -> occursIn sub (a ++ b)%string.
Proof.
  intros (pre & post & E). exists pre, (post ++ b)%string.
  rewrite E, !append_assoc. reflexivity.
Qed.

Lemma occursIn_append_r sub a b : occursIn sub b -> occursIn sub (a ++ b)%string.
Proof.
  intros (pre & post & E). exists (a ++ pre)%string, post.
  rewrite E, !append_assoc. reflexivity.
Qed.

Lemma bulletLines_lists f findings :
  In f findings -> occursIn ("- " ++ Finding.title f ++ nl) (bulletLines findings).
Proof.
  induction findings as [| g gs IH]; intros H; [contradiction |].
  cbn [bulletLines fold_right]. destruct H as [H | H].
  - subst g. exists "", (bulletLines gs).
    rewrite !append_assoc. reflexivity.
  - do 3 apply occursIn_append_r. exact (IH H).
Qed.

Lemma summarySection_lists heading f findings :
  In f findings ->
  occursIn ("- " ++ Finding.title f ++ nl) (summarySection heading findings).
Proof.
  intros H. destruct findings as [| g gs]; [contradiction |].
  unfold summarySection.
  do 4 apply occursIn_append_r. apply bulletLines_lists. exact H.
Qed.

(** X11.  Every finding of an assessment, risk or warning, is listed in its
    summary: the summary holds the line made of a dash, the finding's title
    and a line end. *)
Theorem summary_lists_every_finding h t f :
  let r := analyzeTenderRisks h t in
  In f (Assessment.risks r ++ Assessment.warnings r) ->
  occursIn ("- " ++ Finding.title f ++ nl) (Assessment.summary r).
Proof.
  cbv zeta. rewrite analyze_summary, generateSummary_sections.
  generalize (Assessment.risks (analyzeTenderRisks h t)) as risks.
  generalize (Assessment.warnings (analyzeTenderRisks h t)) as warnings.
  intros warnings risks H. apply in_app_or in H.
  apply occursIn_append_r.
  destruct H as [H | H].
  - destruct risks as [| r rs]; [contradiction |].
    apply occursIn_append_r. apply occursIn_append_l.
    apply summarySection_lists. exact H.
  - destruct risks as [| r rs]; destruct warnings as [| w ws]; try contradiction;
      do 3 apply occursIn_append_r; apply summarySection_lists; exact H.
Qed.

Lemma summary_lists_every_finding_witness :
  occursIn ("- " ++ Finding.title categoryWarning ++ nl)
           (Assessment.summary (analyzeTenderRisks utcHost clinicTender)).
Proof.
  apply (summary_lists_every_finding utcHost clinicTender).
  rewrite analyze_risks, analyze_warnings, runRules_risks, runRules_warnings.
  apply in_or_app. right. apply in_or_app. right. apply in_or_app. right.
  replace (medicalCond clinicTender) with true by (vm_compute; reflexivity).
  left. reflexivity.
Defined.

(** * Further properties of the narrative fallback *)

(** X12.  The result carries an error exactly when a key is configured and
    the external call failed; the error is then what was thrown: the rejection
    of [fetch], or the status of a response that is not ok.  A result from the
    provider carries none. *)
Theorem ai_error_reports_the_failure h net t :
  let r := aiAnalyzeTender h net t in
  (AiResult.error r <> None
   <-> noKey (Host.OPENROUTER_API_KEY h) = false /\ externalCallFails net)
  /\ (AiResult.source r = Source.ai -> AiResult.error r = None)
  /\ (noKey (Host.OPENROUTER_API_KEY h) = false ->
      (forall message, net = Fetch.Rejected message ->
                       AiResult.error r = Some (FetchFailed message))
      /\ (forall status json, net = Fetch.Resolved false status json ->
                              AiResult.error r = Some (ApiError status))
      /\ (forall status message, net = Fetch.Resolved true status (Fetch.Unparsed message) ->
                                 AiResult.error r = Some (BodyFailed message))).
Proof.
  cbv zeta. unfold aiAnalyzeTender.
  destruct (noKey (Host.OPENROUTER_API_KEY h)) eqn:K.
  - cbn [AiResult.error AiResult.source]. repeat apply conj.
    + intros H. exfalso. apply H. reflexivity.
    + intros [H _]. discriminate H.
    + reflexivity.
    + intros H. discriminate H.
  - repeat apply conj.
    + intros H. split; [reflexivity |].
      destruct (aiResponse net) as [e | v] eqn:E.
      * destruct net as [m | ok status json]; cbn [externalCallFails]; [exact I |].
        destruct ok; [right | left; reflexivity].
        destruct json as [m | data]; [exact I |].
        cbn [aiResponse negb] in E. unfold read in E.
        destruct (nullish data); [left; reflexivity | right].
        destruct (nullish (member data (Name "choices"))); [reflexivity | discriminate E].
      * exfalso. apply H. reflexivity.
    + intros [_ H]. destruct (aiResponse_fails net H) as [e He]. rewrite He. discriminate.
    + destruct (aiResponse net); [intros H; discriminate H | reflexivity].
    + intros _. repeat apply conj.
      * intros m E. subst net. reflexivity.
      * intros status json E. subst net. reflexivity.
      * intros status m E. subst net. reflexivity.
Qed.

(** X13.  With a key configured, a response that is ok and whose body parses
    to a value with [choices] gives the provider's text: the content of the
    first choice's message when that is truthy, a non-empty string for
    instance, and the fixed placeholder otherwise.  The source is ai, and the
    details are still the engine's assessment. *)
Theorem ai_text_is_first_choice_content h t status data :
  noKey (Host.OPENROUTER_API_KEY h) = false ->
  nullish data = false ->
  nullish (member data (Name "choices")) = false ->
  let content :=
    readOpt (readOpt (member (member data (Name "choices")) (Index 0)) (Name "message"))
            (Name "content") in
  let r := aiAnalyzeTender h (Fetch.Resolved true status (Fetch.Parsed data)) t in
  r = {| AiResult.success := true;
         AiResult.analysis :=
           if truthy content then content else Str "Не удалось получить анализ";
         AiResult.details := analyzeTenderRisks h t;
         AiResult.source := Source.ai;
         AiResult.error := None |}
  /\ (forall s, content = Str s -> s <> "" -> AiResult.analysis r = Str s).
Proof.
  intros K Nd Nc content r. subst r.
  unfold aiAnalyzeTender. rewrite K.
  cbn [aiResponse negb]. unfold read. rewrite Nd, Nc. fold content.
  split; [reflexivity |].
  intros s E Hs. cbn [AiResult.analysis]. rewrite E. cbn [truthy].
  destruct (String.eqb_spec s ""); [contradiction | reflexivity].
Qed.

Lemma ai_text_is_first_choice_content_witness :
  let data :=
    Obj [("id", Str "gen-1");
         ("choices", Arr [Obj [("message", Obj [("role", Str "assistant");
                                                 ("content", Str "Риск высокий.")])]])] in
  AiResult.analysis (aiAnalyzeTender keyedHost (Fetch.Resolved true 200 (Fetch.Parsed data))
                                     clinicTender)
  = Str "Риск высокий.".
Proof.
  intros data.
  apply (proj2 (ai_text_is_first_choice_content keyedHost clinicTender 200 data
                  eq_refl eq_refl eq_refl)).
  - reflexivity.
  - discriminate.
Defined.

(** * [getTenderById] *)

Lemma findById_objects tenders id :
  forallb isObject tenders = true ->
  (findById tenders id = inr Undefined
   /\ forall u, In u tenders -> strictEq (member u (Name "id")) id = false)
  \/ (exists pre t post,
        findById tenders id = inr t
        /\ tenders = pre ++ t :: post
        /\ isObject t = true
        /\ strictEq (member t (Name "id")) id = true
        /\ forall u, In u pre -> strictEq (member u (Name "id")) id = false).
Proof.
  induction tenders as [| x xs IH]; intros H.
  - left. split; [reflexivity | intros u []].
  - cbn [forallb] in H. apply andb_true_iff in H. destruct H as [Hx Hxs].
    cbn [findById]. unfold read.
    assert (Nx : nullish x = false) by (destruct x; try discriminate Hx; reflexivity).
    rewrite Nx.
    destruct (strictEq (member x (Name "id")) id) eqn:E.
    + right. exists [], x, xs. repeat split; try assumption. intros u [].
    + destruct (IH Hxs) as [[F N] | (pre & t & post & F & L & O & M & N)].
      * left. split; [exact F |]. intros u [U | U]; [subst; exact E | exact (N u U)].
      * right. exists (x :: pre), t, post. repeat split; try assumption.
        -- rewrite L. reflexivity.
        -- intros u [U | U]; [subst; exact E | exact (N u U)].
Qed.

(** X14.  On an array of objects [getTenderById] never throws.  It returns
    the first tender whose [id] is strictly equal to the argument, so a later
    tender with the same [id] is never returned, and it answers not found,
    with its fixed message, exactly when no tender has that [id]. *)
Theorem getTenderById_first_match tenders id :
  forallb isObject tenders = true ->
  (getTenderById tenders id = inr (Lookup.NotFound "Тендер не найден")
   /\ forall u, In u tenders -> strictEq (member u (Name "id")) id = false)
  \/ (exists pre t post,
        getTenderById tenders id = inr (Lookup.Found t)
        /\ tenders = pre ++ t :: post
        /\ strictEq (member t (Name "id")) id = true
        /\ forall u, In u pre -> strictEq (member u (Name "id")) id = false).
Proof.
  intros H. unfold getTenderById.
  destruct (findById_objects tenders id H) as [[F N] | (pre & t & post & F & L & O & M & N)].
  - left. rewrite F. split; [reflexivity | exact N].
  - right. exists pre, t, post. rewrite F.
    assert (T : truthy t = true) by (destruct t; try discriminate O; reflexivity).
    rewrite T. repeat split; assumption.
Qed.

Lemma getTenderById_first_match_witness :
  let first := Obj [("id", Str "T-1"); ("title", Str "A")] in
  let second := Obj [("id", Str "T-2"); ("title", Str "B")] in
  let again := Obj [("id", Str "T-2"); ("title", Str "C")] in
  getTenderById [first; second; again] (Str "T-2") = inr (Lookup.Found second)
  /\ exists pre t post,
       getTenderById [first; second; again] (Str "T-2") = inr (Lookup.Found t)
       /\ [first; second; again] = pre ++ t :: post.
Proof.
  intros first second again.
  split; [reflexivity |].
  destruct (getTenderById_first_match [first; second; again] (Str "T-2") eq_refl)
    as [[_ N] | (pre & t & post & F & L & _)].
  - specialize (N second (or_intror (or_introl eq_refl))). discriminate N.
  - exists pre, t, post. exact (conj F L).
Defined.

(** X15.  [===] does not convert: when every tender's [id] is a number, no
    string finds a tender, not even the string of digits of an [id]. *)
Theorem getTenderById_string_misses_numeric_ids tenders s :
  forallb isObject tenders = true ->
  (forall u, In u tenders -> exists n, member u (Name "id") = Num n) ->
  getTenderById tenders (Str s) = inr (Lookup.NotFound "Тендер не найден").
Proof.
  intros H Hn. unfold getTenderById.
  destruct (findById_objects tenders (Str s) H)
    as [[F _] | (pre & t & post & _ & L & _ & M & _)]; [rewrite F; reflexivity | exfalso].
  destruct (Hn t) as [n E]; [rewrite L; apply in_or_app; right; left; reflexivity |].
  rewrite E in M. discriminate M.
Qed.

Lemma getTenderById_string_misses_numeric_ids_witness :
  getTenderById [Obj [("id", Num 1)]; Obj [("id", Num 2)]] (Str "1")
  = inr (Lookup.NotFound "Тендер не найден").
Proof.
  apply (getTenderById_string_misses_numeric_ids
           [Obj [("id", Num 1)]; Obj [("id", Num 2)]] "1").
  - reflexivity.
  - intros u [U | [U | []]]; subst u; eexists; reflexivity.
Defined.

(** * The classifiers of the page *)

Lemma Qle_bool_trans_false x y z : (x <= y)%Q -> Qle_bool x z = false -> Qle_bool y z = false.
Proof.
  intros H F. apply not_true_is_false. intros E. apply Qle_bool_iff in E.
  assert (E' : Qle_bool x z = true) by (apply Qle_bool_iff; lra).
  congruence.
Qed.

(** For the five pollutants the table has an entry, and the status is read
    off its two thresholds. *)
Lemma getPollutantStatus_by_thresholds (p : Pollutant.t) (x : Q) :
  getPollutantStatus (Pollutant.name p) (JSNumber.Finite x)
  = if Qle_bool x (inject_Z (goodThreshold p)) then Status.good
    else if Qle_bool x (inject_Z (moderateThreshold p)) then Status.moderate
    else Status.poor.
Proof. destruct p; reflexivity. Qed.

Lemma Qle_bool_false_iff (x y : Q) : Qle_bool x y = false <-> (y < x)%Q.
Proof.
  split; intros E.
  - apply Qnot_le_lt. intros L. apply Qle_bool_iff in L. congruence.
  - apply not_true_is_false. intros L. apply Qle_bool_iff in L. lra.
Qed.

Lemma goodThreshold_le_moderate (p : Pollutant.t) :
  (inject_Z (goodThreshold p) <= inject_Z (moderateThreshold p))%Q.
Proof. destruct p; discriminate. Qed.

Lemma getPollutantStatus_finite (p : Pollutant.t) (a : Q) :
  (getPollutantStatus (Pollutant.name p) (JSNumber.Finite a) = Status.good
   <-> (a <= inject_Z (goodThreshold p))%Q)
  /\ (getPollutantStatus (Pollutant.name p) (JSNumber.Finite a) = Status.poor
      <-> (inject_Z (moderateThreshold p) < a)%Q)
  /\ getPollutantStatus (Pollutant.name p) (JSNumber.Finite a) <> Status.unknown.
Proof.
  pose proof (goodThreshold_le_moderate p) as T.
  pose proof Qle_bool_false_iff as F.
  rewrite !getPollutantStatus_by_thresholds.
  split; [| split].
  - destruct (Qle_bool a (inject_Z (goodThreshold p))) eqn:Ga.
    + apply Qle_bool_iff in Ga. split; [intros _; exact Ga | reflexivity].
    + apply F in Ga.
      split; [| intros L; exfalso; lra].
      destruct (Qle_bool a (inject_Z (moderateThreshold p))); intros E; discriminate E.
  - destruct (Qle_bool a (inject_Z (goodThreshold p))) eqn:Ga;
      destruct (Qle_bool a (inject_Z (moderateThreshold p))) eqn:Ma;
      rewrite ?F in *; rewrite ?Qle_bool_iff in *;
      (split; [intros E; try discriminate E; try assumption | intros L; try reflexivity; exfalso; lra]).
  - destruct (Qle_bool a (inject_Z (goodThreshold p)));
      destruct (Qle_bool a (inject_Z (moderateThreshold p))); discriminate.
Qed.

(** X16.  For the five pollutants the status never gets better as the reading
    grows, a finite reading is good exactly up to the good threshold and poor
    exactly above the moderate one, and the status is never unknown. *)
Theorem getPollutantStatus_monotone (p : Pollutant.t) (a b : Q) :
  (a <= b)%Q ->
  statusRank (getPollutantStatus (Pollutant.name p) (JSNumber.Finite a))
  <= statusRank (getPollutantStatus (Pollutant.name p) (JSNumber.Finite b))
  /\ (getPollutantStatus (Pollutant.name p) (JSNumber.Finite a) = Status.good
      <-> (a <= inject_Z (goodThreshold p))%Q)
  /\ (getPollutantStatus (Pollutant.name p) (JSNumber.Finite a) = Status.poor
      <-> (inject_Z (moderateThreshold p) < a)%Q)
  /\ getPollutantStatus (Pollutant.name p) (JSNumber.Finite a) <> Status.unknown.
Proof.
  intros H.
  split; [| exact (getPollutantStatus_finite p a)].
  pose proof (goodThreshold_le_moderate p) as T.
  pose proof Qle_bool_false_iff as F.
  rewrite !getPollutantStatus_by_thresholds.
  destruct (Qle_bool a (inject_Z (goodThreshold p))) eqn:Ga;
    destruct (Qle_bool a (inject_Z (moderateThreshold p))) eqn:Ma;
    destruct (Qle_bool b (inject_Z (goodThreshold p))) eqn:Gb;
    destruct (Qle_bool b (inject_Z (moderateThreshold p))) eqn:Mb;
    cbn [statusRank]; try lia; exfalso;
    rewrite ?F in *; rewrite ?Qle_bool_iff in *; lra.
Qed.

Lemma getPollutantStatus_monotone_witness :
  statusRank (getPollutantStatus "pm10" (JSNumber.Finite 45))
  <= statusRank (getPollutantStatus "pm10" (JSNumber.Finite 75.5)).
Proof.
  apply (getPollutantStatus_monotone Pollutant.pm10 45 75.5). discriminate.
Defined.

(** X17.  A kind that is neither one of the five pollutants nor a property
    name of [Object.prototype] is unknown, whatever the value, [NaN] and the
    infinities included. *)
Theorem getPollutantStatus_other_kind kind value :
  ~ In kind ["pm25"; "pm10"; "no2"; "so2"; "co"] ->
  ~ In kind objectPrototype ->
  getPollutantStatus kind value = Status.unknown.
Proof.
  intros H1 H2. apply getPollutantStatus_unknown.
  - unfold thresholds. cbn [ownEntry].
    repeat match goal with
           | |- context [(kind =? ?k)%string] =>
               destruct (String.eqb_spec kind k);
               [exfalso; apply H1; subst; cbn; tauto |]
           end.
    reflexivity.
  - unfold includes. apply not_true_is_false. intros E.
    apply existsb_exists in E. destruct E as (k & Hk & E).
    apply String.eqb_eq in E. subst k. exact (H2 Hk).
Qed.

Lemma getPollutantStatus_other_kind_witness :
  getPollutantStatus "o3" JSNumber.NaN = Status.unknown.
Proof.
  apply (getPollutantStatus_other_kind "o3" JSNumber.NaN).
  - cbn. intros H. repeat destruct H as [H | H]; try discriminate H; contradiction.
  - cbn. intros H. repeat destruct H as [H | H]; try discriminate H; contradiction.
Defined.

(** X18.  The colour of an index never moves to an earlier band as the index
    grows; grey is kept for [null] and [undefined], and a number that
    compares with nothing ([NaN]) gets the colour of the last band. *)
Theorem getAqiColor_monotone (a b : Q) :
  (a <= b)%Q ->
  indexOf (getAqiColor (Some (JSNumber.Finite a))) aqiColors
  <= indexOf (getAqiColor (Some (JSNumber.Finite b))) aqiColors
  /\ (forall x, In (getAqiColor (Some x)) aqiColors)
  /\ ~ In (getAqiColor None) aqiColors
  /\ getAqiColor (Some JSNumber.NaN) = "#7f1d1d".
Proof.
  intros H. split; [| split; [| split]].
  - unfold getAqiColor, JSNumber.leb.
    destruct (Qle_bool a 50) eqn:A1; [destruct (Qle_bool b 50);
      destruct (Qle_bool b 100); destruct (Qle_bool b 150); destruct (Qle_bool b 200);
      destruct (Qle_bool b 300); cbn; lia |].
    rewrite (Qle_bool_trans_false a b _ H A1).
    destruct (Qle_bool a 100) eqn:A2; [destruct (Qle_bool b 100);
      destruct (Qle_bool b 150); destruct (Qle_bool b 200);
      destruct (Qle_bool b 300); cbn; lia |].
    rewrite (Qle_bool_trans_false a b _ H A2).
    destruct (Qle_bool a 150) eqn:A3; [destruct (Qle_bool b 150);
      destruct (Qle_bool b 200); destruct (Qle_bool b 300); cbn; lia |].
    rewrite (Qle_bool_trans_false a b _ H A3).
    destruct (Qle_bool a 200) eqn:A4; [destruct (Qle_bool b 200);
      destruct (Qle_bool b 300); cbn; lia |].
    rewrite (Qle_bool_trans_false a b _ H A4).
    destruct (Qle_bool a 300) eqn:A5; [destruct (Qle_bool b 300); cbn; lia |].
    rewrite (Qle_bool_trans_false a b _ H A5). cbn. lia.
  - intros x. unfold getAqiColor.
    destruct (JSNumber.leb x (JSNumber.Finite 50)); [cbn; tauto |].
    destruct (JSNumber.leb x (JSNumber.Finite 100)); [cbn; tauto |].
    destruct (JSNumber.leb x (JSNumber.Finite 150)); [cbn; tauto |].
    destruct (JSNumber.leb x (JSNumber.Finite 200)); [cbn; tauto |].
    destruct (JSNumber.leb x (JSNumber.Finite 300)); cbn; tauto.
  - cbn. intros E. repeat destruct E as [E | E]; try discriminate E; contradiction.
  - reflexivity.
Qed.

Lemma getAqiColor_monotone_witness :
  indexOf (getAqiColor (Some (JSNumber.Finite 50))) aqiColors
  <= indexOf (getAqiColor (Some (JSNumber.Finite 51))) aqiColors.
Proof.
  apply (getAqiColor_monotone 50 51). discriminate.
Defined.

(** * [calculateAverage] *)

Lemma readings_nil p stations :
  readings p stations = [] <-> forall s, In s stations -> readingOf p s = None.
Proof.
  induction stations as [| s rest IH]; cbn [readings].
  - split; [intros _ s [] | reflexivity].
  - destruct (readingOf p s) eqn:E.
    + split; [intros H; discriminate H |].
      intros H. specialize (H s (or_introl eq_refl)). congruence.
    + rewrite IH. split.
      * intros H u [U | U]; [subst; exact E | exact (H u U)].
      * intros H u U. apply H. right. exact U.
Qed.

Lemma lengthOf_cons {A : Type} (x : A) (l : list A) : lengthOf (x :: l) = lengthOf l + 1.
Proof. unfold lengthOf. cbn [List.length]. lia. Qed.

Lemma lengthOf_nonneg {A : Type} (l : list A) : 0 <= lengthOf l.
Proof. unfold lengthOf. lia. Qed.

(** X19.  When no station has a reading of the pollutant, and only then, the
    average has no value, an empty unit and the status unknown; otherwise it
    has a value, the unit mg/m³ for co and µg/m³ for the others, and a status
    other than unknown. *)
Theorem calculateAverage_without_readings stations p :
  let r := calculateAverage stations p in
  ((forall s, In s stations -> readingOf p s = None)
   <-> r = {| Average.value := None; Average.unit := ""; Average.status := Status.unknown |})
  /\ ((forall s, In s stations -> readingOf p s = None)
      <-> Average.status r = Status.unknown)
  /\ ((exists s, In s stations /\ readingOf p s <> None) ->
      Average.value r <> None
      /\ Average.unit r = (if (Pollutant.name p =? "co")%string then "mg/m³" else "µg/m³"))
  /\ (Average.unit r = "mg/m³" -> p = Pollutant.co).
Proof.
  cbv zeta. rewrite <- readings_nil. unfold calculateAverage.
  destruct (readings p stations) as [| v vs] eqn:R.
  - cbn [lengthOf List.length Z.of_nat Z.eqb].
    repeat apply conj; try reflexivity; try (intros; reflexivity).
    + intros (s & Hs & N). exfalso. apply N.
      apply (proj1 (readings_nil p stations) R). exact Hs.
    + cbn [Average.unit]. intros E. discriminate E.
  - assert (L : (lengthOf (v :: vs) =? 0) = false).
    { apply Z.eqb_neq. rewrite lengthOf_cons. pose proof (lengthOf_nonneg vs). lia. }
    rewrite L. cbn [Average.status Average.value Average.unit].
    repeat apply conj.
    + intros E. discriminate E.
    + intros E. discriminate E.
    + intros E. discriminate E.
    + intros E. exfalso.
      exact (proj2 (proj2 (getPollutantStatus_finite p _)) E).
    + intros _. split; [discriminate | reflexivity].
    + destruct p; cbn; intros E; try discriminate E; reflexivity.
Qed.

Lemma fold_add_upper hi vs : forall acc k,
  0 <= k ->
  (acc <= inject_Z (k * hi))%Q ->
  Forall (fun v => (v <= inject_Z hi)%Q) vs ->
  (k + lengthOf vs) * Z.abs hi < 2 ^ 53 ->
  (fold_left Number.add vs acc <= inject_Z ((k + lengthOf vs) * hi))%Q.
Proof.
  induction vs as [| v vs IH]; intros acc k Hk Ha Hv Hn.
  - cbn [fold_left]. unfold lengthOf. cbn [List.length Z.of_nat].
    rewrite Z.add_0_r. exact Ha.
  - cbn [fold_left]. rewrite lengthOf_cons in *.
    pose proof (lengthOf_nonneg vs) as Hl.
    inversion Hv as [| ? ? Hv1 Hv2]; subst.
    replace (k + (lengthOf vs + 1)) with ((k + 1) + lengthOf vs) in * by ring.
    apply IH; try assumption; [lia |].
    unfold Number.add.
    apply Qle_trans with (Number.rnd (inject_Z ((k + 1) * hi))).
    + apply rnd_mono.
      replace ((k + 1) * hi) with (k * hi + hi) by ring.
      rewrite inject_Z_plus. lra.
    + rewrite rnd_Z; [apply Qle_refl |]. rewrite Z.abs_mul. nia.
Qed.

Lemma fold_add_lower lo vs : forall acc k,
  0 <= k ->
  (inject_Z (k * lo) <= acc)%Q ->
  Forall (fun v => (inject_Z lo <= v)%Q) vs ->
  (k + lengthOf vs) * Z.abs lo < 2 ^ 53 ->
  (inject_Z ((k + lengthOf vs) * lo) <= fold_left Number.add vs acc)%Q.
Proof.
  induction vs as [| v vs IH]; intros acc k Hk Ha Hv Hn.
  - cbn [fold_left]. unfold lengthOf. cbn [List.length Z.of_nat].
    rewrite Z.add_0_r. exact Ha.
  - cbn [fold_left]. rewrite lengthOf_cons in *.
    pose proof (lengthOf_nonneg vs) as Hl.
    inversion Hv as [| ? ? Hv1 Hv2]; subst.
    replace (k + (lengthOf vs + 1)) with ((k + 1) + lengthOf vs) in * by ring.
    apply IH; try assumption; [lia |].
    unfold Number.add.
    apply Qle_trans with (Number.rnd (inject_Z ((k + 1) * lo))).
    + rewrite rnd_Z; [apply Qle_refl |]. rewrite Z.abs_mul. nia.
    + apply rnd_mono.
      replace ((k + 1) * lo) with (k * lo + lo) by ring.
      rewrite inject_Z_plus. lra.
Qed.

Lemma average_upper hi vs :
  vs <> [] ->
  Forall (fun v => (v <= inject_Z hi)%Q) vs ->
  lengthOf vs * Z.abs hi < 2 ^ 53 ->
  (Number.div (fold_left Number.add vs 0%Q) (inject_Z (lengthOf vs)) <= inject_Z hi)%Q.
Proof.
  intros Hne Hv Hn.
  assert (Hl : 0 < lengthOf vs).
  { destruct vs; [contradiction |]. rewrite lengthOf_cons. pose proof (lengthOf_nonneg vs). lia. }
  pose proof (fold_add_upper hi vs 0%Q 0 (Z.le_refl 0) (Qle_refl 0) Hv Hn) as S.
  cbn [Z.add] in S.
  assert (Hq : (0 < inject_Z (lengthOf vs))%Q) by (rewrite <- (Zlt_Qlt 0); exact Hl).
  unfold Number.div.
  apply Qle_trans with (Number.rnd (inject_Z hi)).
  - apply rnd_mono. apply Qle_shift_div_r; [exact Hq |].
    rewrite <- inject_Z_mult. rewrite (Z.mul_comm hi). exact S.
  - rewrite rnd_Z; [apply Qle_refl |]. nia.
Qed.

Lemma average_lower lo vs :
  vs <> [] ->
  Forall (fun v => (inject_Z lo <= v)%Q) vs ->
  lengthOf vs * Z.abs lo < 2 ^ 53 ->
  (inject_Z lo <= Number.div (fold_left Number.add vs 0%Q) (inject_Z (lengthOf vs)))%Q.
Proof.
  intros Hne Hv Hn.
  assert (Hl : 0 < lengthOf vs).
  { destruct vs; [contradiction |]. rewrite lengthOf_cons. pose proof (lengthOf_nonneg vs). lia. }
  pose proof (fold_add_lower lo vs 0%Q 0 (Z.le_refl 0) (Qle_refl 0) Hv Hn) as S.
  cbn [Z.add] in S.
  assert (Hq : (0 < inject_Z (lengthOf vs))%Q) by (rewrite <- (Zlt_Qlt 0); exact Hl).
  unfold Number.div.
  apply Qle_trans with (Number.rnd (inject_Z lo)).
  - rewrite rnd_Z; [apply Qle_refl |]. nia.
  - apply rnd_mono. apply Qle_shift_div_l; [exact Hq |].
    rewrite <- inject_Z_mult. rewrite (Z.mul_comm lo). exact S.
Qed.

Lemma calculateAverage_value stations p :
  readings p stations <> [] ->
  calculateAverage stations p
  = let avg := Number.div (fold_left Number.add (readings p stations) 0%Q)
                          (inject_Z (lengthOf (readings p stations))) in
    {| Average.value := Some avg;
       Average.unit := if (Pollutant.name p =? "co")%string then "mg/m³" else "µg/m³";
       Average.status := getPollutantStatus (Pollutant.name p) (JSNumber.Finite avg) |}.
Proof.
  intros H. unfold calculateAverage.
  destruct (readings p stations) as [| v vs]; [contradiction |].
  assert (L : (lengthOf (v :: vs) =? 0) = false).
  { apply Z.eqb_neq. rewrite lengthOf_cons. pose proof (lengthOf_nonneg vs). lia. }
  rewrite L. reflexivity.
Qed.

(** X20.  The average of readings that all lie between two integers lies
    between them too, although every addition and the division round:
    rounding never carries the mean outside whole bounds (for fewer than
    2^53 / bound readings). *)
Theorem calculateAverage_within_bounds stations p lo hi :
  readings p stations <> [] ->
  Forall (fun v => (inject_Z lo <= v <= inject_Z hi)%Q) (readings p stations) ->
  lengthOf (readings p stations) * Z.max (Z.abs lo) (Z.abs hi) < 2 ^ 53 ->
  exists avg,
    Average.value (calculateAverage stations p) = Some avg
    /\ (inject_Z lo <= avg <= inject_Z hi)%Q.
Proof.
  intros Hne Hv Hn. rewrite (calculateAverage_value stations p Hne). cbv zeta.
  cbn [Average.value]. eexists. split; [reflexivity |].
  pose proof (lengthOf_nonneg (readings p stations)) as Hl.
  split.
  - apply average_lower; [exact Hne | | nia].
    eapply Forall_impl; [| exact Hv]. cbv beta. intros v [H _]. exact H.
  - apply average_upper; [exact Hne | | nia].
    eapply Forall_impl; [| exact Hv]. cbv beta. intros v [_ H]. exact H.
Qed.

(** Three stations: one without details, two with pm25 readings 12 and 14.5. *)
Lemma calculateAverage_within_bounds_witness :
  let stations :=
    [ {| Station.details := None |};
      {| Station.details :=
           Some {| Details.pollutants :=
                     Some [("pm25", Some {| Reading.value := Some 12%Q |})] |} |};
      {| Station.details :=
           Some {| Details.pollutants :=
                     Some [("pm10", Some {| Reading.value := Some 30%Q |});
                           ("pm25", Some {| Reading.value := Some 14.5%Q |})] |} |} ] in
  Average.value (calculateAverage stations Pollutant.pm25) = Some (53 # 4)%Q
  /\ exists avg, Average.value (calculateAverage stations Pollutant.pm25) = Some avg
                 /\ (inject_Z 12 <= avg <= inject_Z 15)%Q.
Proof.
  intros stations. split; [vm_compute; reflexivity |].
  apply (calculateAverage_within_bounds stations Pollutant.pm25 12 15).
  - discriminate.
  - cbn. repeat constructor; discriminate.
  - vm_compute. reflexivity.
Defined.

(** X21.  When every reading of a pollutant is at or below its good
    threshold, the average is good; when every reading is at or below its
    moderate threshold, the average is not poor (for fewer than 2^46
    readings). *)
Theorem calculateAverage_of_good_readings stations p :
  readings p stations <> [] ->
  lengthOf (readings p stations) < 2 ^ 46 ->
  (Forall (fun v => (v <= inject_Z (goodThreshold p))%Q) (readings p stations) ->
   Average.status (calculateAverage stations p) = Status.good)
  /\ (Forall (fun v => (v <= inject_Z (moderateThreshold p))%Q) (readings p stations) ->
      Average.status (calculateAverage stations p) <> Status.poor).
Proof.
  intros Hne Hn. rewrite (calculateAverage_value stations p Hne). cbv zeta.
  cbn [Average.status].
  pose proof (lengthOf_nonneg (readings p stations)) as Hl.
  set (avg := Number.div (fold_left Number.add (readings p stations) 0%Q)
                         (inject_Z (lengthOf (readings p stations)))).
  destruct (getPollutantStatus_finite p avg) as (G & P & _).
  split; intros Hv.
  - apply G. apply average_upper; [exact Hne | exact Hv |].
    destruct p; cbn [goodThreshold Z.abs]; lia.
  - intros E. apply P in E.
    assert (U : (avg <= inject_Z (moderateThreshold p))%Q).
    { apply average_upper; [exact Hne | exact Hv |].
      destruct p; cbn [moderateThreshold Z.abs]; lia. }
    lra.
Qed.

Lemma calculateAverage_of_good_readings_witness :
  let stations :=
    [ {| Station.details :=
           Some {| Details.pollutants :=
                     Some [("co", Some {| Reading.value := Some 0.5%Q |})] |} |};
      {| Station.details :=
           Some {| Details.pollutants :=
                     Some [("co", Some {| Reading.value := Some 0.25%Q |})] |} |};
      {| Station.details :=
           Some {| Details.pollutants :=
                     Some [("co", Some {| Reading.value := Some 4%Q |})] |} |} ] in
  Average.status (calculateAverage stations Pollutant.co) = Status.good.
Proof.
  intros stations.
  apply (calculateAverage_of_good_readings stations Pollutant.co).
  - discriminate.
  - reflexivity.
  - cbn. repeat constructor; discriminate.
Defined.

(** * The text of an amount *)

Lemma Qfloor_unique (y : Q) (n : Z) :
  (inject_Z n <= y)%Q -> (y < inject_Z n + 1)%Q -> Qfloor y = n.
Proof.
  intros L U.
  pose proof (Qfloor_le y) as F1. pose proof (Qlt_floor y) as F2.
  rewrite inject_Z_plus in F2. change (inject_Z 1) with 1%Q in F2.
  assert (A : (inject_Z (Qfloor y) < inject_Z n + 1)%Q) by lra.
  assert (B : (inject_Z n < inject_Z (Qfloor y) + 1)%Q) by lra.
  change 1%Q with (inject_Z 1) in A, B.
  rewrite <- inject_Z_plus, <- Zlt_Qlt in A.
  rewrite <- inject_Z_plus, <- Zlt_Qlt in B.
  lia.
Qed.

(** In millions the quotient rounds to the same whole number as the exact
    one. *)
Lemma millions_rounded (a : Z) :
  1000000 <= a < 1000000000 ->
  let x := Number.div (Number.ofZ a) 1000000 in
  (0 < x)%Q /\ (x < 1001)%Q /\ Qfloor (x + (1 # 2)) = (a + 500000) / 1000000.
Proof.
  intros Ha x.
  set (n := (a + 500000) / 1000000).
  assert (Hn : n * 1000000 <= a + 500000 < (n + 1) * 1000000).
  { unfold n. pose proof (Z.div_mod (a + 500000) 1000000 ltac:(discriminate)) as D.
    pose proof (Z.mod_pos_bound (a + 500000) 1000000 eq_refl) as B. lia. }
  assert (Hn1 : 1 <= n <= 1000) by lia.
  assert (Ex : x = Number.rnd (inject_Z a / 1000000)).
  { unfold x, Number.div, Number.ofZ. apply rnd_comp.
    rewrite rnd_Z by lia. reflexivity. }
  set (d1 := (inject_Z (2 * n - 1) * Number.pow2 (- 1))%Q).
  set (d2 := (inject_Z ((2 * n + 1) * 2 ^ 20 - 1) * Number.pow2 (- 21))%Q).
  assert (R1 : (Number.rnd d1 == d1)%Q) by (apply rnd_exact; lia).
  assert (R2 : (Number.rnd d2 == d2)%Q) by (apply rnd_exact; lia).
  assert (V1 : (d1 == inject_Z n - (1 # 2))%Q).
  { unfold d1, Number.pow2. change (2 ^ (- 1))%Q with (1 # 2)%Q.
    unfold Qeq, Qmult, Qminus, Qplus, Qopp. cbn [Qnum Qden inject_Z]. lia. }
  assert (V2 : (d2 < inject_Z n + (1 # 2))%Q).
  { unfold d2, Number.pow2. change (2 ^ (- 21))%Q with (1 # 2097152)%Q.
    unfold Qlt, Qmult, Qplus. cbn [Qnum Qden inject_Z]. lia. }
  assert (L : (d1 <= inject_Z a / 1000000)%Q).
  { rewrite V1. apply Qle_shift_div_l; [reflexivity |].
    unfold Qle, Qmult, Qminus, Qplus, Qopp. cbn [Qnum Qden inject_Z]. lia. }
  assert (U : (inject_Z a / 1000000 <= d2)%Q).
  { apply Qle_shift_div_r; [reflexivity |].
    unfold d2, Number.pow2. change (2 ^ (- 21))%Q with (1 # 2097152)%Q.
    unfold Qle, Qmult. cbn [Qnum Qden inject_Z]. lia. }
  assert (Lx : (d1 <= x)%Q) by (rewrite Ex, <- R1; apply rnd_mono; exact L).
  assert (Ux : (x <= d2)%Q) by (rewrite Ex, <- R2; apply rnd_mono; exact U).
  assert (N1 : (1 <= inject_Z n)%Q) by (unfold Qle; cbn [Qnum Qden inject_Z]; lia).
  assert (N2 : (inject_Z n <= 1000)%Q) by (unfold Qle; cbn [Qnum Qden inject_Z]; lia).
  clearbody d1 d2 x.
  split; [lra |]. split; [lra |].
  apply Qfloor_unique; lra.
Qed.

(** X22.  An integer amount from one million to below one billion is shown in
    whole millions, rounded half up, by [formatAmount] and by the page's
    [formatTenderAmount] alike; so 999 500 000 and more read 1000 млн ₸. *)
Theorem formatAmount_in_millions (a : Z) :
  1000000 <= a < 1000000000 ->
  formatTenderAmount (Number.ofZ a) = formatAmount (Number.ofZ a)
  /\ render (formatAmount (Number.ofZ a))
     = Some (Number.toString ((a + 500000) / 1000000) ++ " млн ₸")%string
  /\ (999500000 <= a -> render (formatAmount (Number.ofZ a)) = Some "1000 млн ₸").
Proof.
  intros Ha.
  assert (R : render (formatAmount (Number.ofZ a))
              = Some (Number.toString ((a + 500000) / 1000000) ++ " млн ₸")%string).
  { destruct (millions_rounded a Ha) as (P & B & F).
    set (x := Number.div (Number.ofZ a) 1000000) in *.
    unfold formatAmount.
    assert (G9 : Number.geb (Number.ofZ a) 1000000000 = false).
    { unfold Number.geb. apply not_true_is_false. intros E. apply Qle_bool_iff in E.
      assert (E' : (Number.ofZ a <= Number.ofZ 999999999)%Q) by (apply ofZ_mono; lia).
      assert (E'' : (Number.ofZ 999999999 < 1000000000)%Q) by (vm_compute; reflexivity).
      lra. }
    assert (G6 : Number.geb (Number.ofZ a) 1000000 = true).
    { unfold Number.geb. apply Qle_bool_iff.
      apply Qle_trans with (Number.ofZ 1000000); [vm_compute; discriminate |].
      apply ofZ_mono. lia. }
    rewrite G9, G6. fold x.
    cbn [render renderPiece]. unfold toFixed.
    assert (S : Qle_bool 0 x = true) by (apply Qle_bool_iff; lra).
    rewrite S. cbn [negb].
    assert (T : Qle_bool (inject_Z (10 ^ 21)) x = false).
    { apply not_true_is_false. intros E. apply Qle_bool_iff in E.
      assert ((1001 <= inject_Z (10 ^ 21))%Q) by (vm_compute; discriminate). lra. }
    rewrite T.
    assert (Fx : Qfloor (x * inject_Z (10 ^ 0) + (1 # 2)) = (a + 500000) / 1000000).
    { rewrite <- F. apply Qfloor_comp. change (inject_Z (10 ^ 0)) with 1%Q. ring. }
    rewrite Fx. cbn [Z.eqb Z.to_nat Nat.add].
    set (m := Number.toString ((a + 500000) / 1000000)).
    assert (Z1 : (zeros (1 - String.length m) ++ m)%string = m).
    { assert (Hm : m <> "").
      { unfold m, Number.toString.
        destruct (Z.to_int ((a + 500000) / 1000000)) as [d | d]; cbn.
        - destruct d; discriminate.
        - discriminate. }
      destruct m as [| c m']; [contradiction |]. cbn [String.length Nat.sub zeros append].
      reflexivity. }
    rewrite Z1. rewrite append_nil_r. reflexivity. }
  split; [reflexivity |]. split; [exact R |].
  intros H. rewrite R.
  replace ((a + 500000) / 1000000) with 1000; [reflexivity |].
  apply Z.div_unique with (a + 500000 - 1000000000); lia.
Qed.

Lemma formatAmount_in_millions_witness :
  render (formatAmount (Number.ofZ 999500000)) = Some "1000 млн ₸".
Proof.
  refine (proj2 (proj2 (formatAmount_in_millions 999500000 _)) _).
  - split; [discriminate | reflexivity].
  - discriminate.
Defined.
